(** * Student Notes Summarizer: a shallow embedding of [summariser_app.py]

    The script is a Streamlit application: every user action re-runs the
    whole module top to bottom against the per-session dictionary
    [st.session_state].  The embedding follows the script block by block.

    - Python exceptions, the session dictionary, the elements written to
      the page and the requests sent to the generation service are the
      effects of a small state-and-exception monad [M].
    - The third-party libraries (PyMuPDF, python-docx, google.generativeai)
      are interfaces: the script is verified against every implementation
      of them.
    - [os.path.splitext] is embedded from CPython's [genericpath._splitext]. *)

From Stdlib Require Import ZArith String Ascii List Lia.
From Stdlib Require Import Strings.Byte.
From stdpp Require Import gmap strings list fin_maps.
From Equations Require Import Equations.

Local Open Scope Z_scope.

(** ** Python values *)

(** [bytes] objects. *)
Definition bytes : Type := list byte.

(** Exceptions.  Every exception of the model is an instance of Python's
    [Exception] class, which is what [except Exception] catches;
    [str e] is what an f-string prints for [{e}]. *)
Inductive exn : Type :=
| Exception (msg : string).

Definition str (e : exn) : string :=
  match e with Exception msg => msg end.

(** What evaluating a Python expression or statement does: it returns a
    value or raises. *)
Inductive Outcome (A : Type) : Type :=
| Returns (a : A)
| Raises (e : exn).
Arguments Returns {A} a.
Arguments Raises {A} e.

(** The string ["\n"]. *)
Definition LF : string := String "010"%char "".

(** Truth value testing.  A [str] is false exactly when it is empty; the
    result of [os.getenv] is [None] or a [str]. *)
Class Truthy (A : Type) := bool_of : A -> bool.

#[export] Instance str_truthy : Truthy string :=
  fun s => match s with EmptyString => false | String _ _ => true end.

#[export] Instance option_truthy {A} `{Truthy A} : Truthy (option A) :=
  fun o => match o with None => false | Some a => bool_of a end.

(** ** The page and the session *)

(** Elements a script run writes to the page. *)
Inductive Element : Type :=
| Title (body : string)
| Markdown (body : string)
| Subheader (body : string)
| Write (body : string)
| Error (body : string)
| Warning (body : string)
| Success (body : string)
| Info (body : string)
| DownloadButton (label data file_name mime key help : string).

(** The world a script run acts on.  [st.session_state] holds two kinds
    of entries: those the script assigns by attribute, which are strings
    ([session_state]), and those Streamlit itself adds for the widgets
    that are given a [key], under that key ([widget_keys] lists the keys
    of the keyed widgets rendered so far in the run; the value kept under
    such a key is the widget's own value, which the script never reads
    and which is not modelled).  The script's one keyed widget is the
    download button, whose key is none of the names the script reads or
    assigns.  Then come the page rendered so far (in order) and the
    prompts sent to the generation service so far (in order). *)
Record World : Type := mkWorld {
  session_state : gmap string string;
  page : list Element;
  requests : list string;
  widget_keys : gset string
}.

(** ** The monad of script fragments *)

Definition M (A : Type) : Type := World -> Outcome A * World.

Definition ret {A} (a : A) : M A := fun w => (Returns a, w).

Definition bind {A B} (m : M A) (k : A -> M B) : M B :=
  fun w =>
    match m w with
    | (Returns a, w') => k a w'
    | (Raises e, w') => (Raises e, w')
    end.

Declare Scope py_scope.
Delimit Scope py_scope with py.
Notation "x <- m ;; k" := (bind m (fun x => k))
  (at level 100, m at next level, right associativity) : py_scope.
Notation "m ;; k" := (bind m (fun _ => k))
  (at level 100, right associativity) : py_scope.
Local Open Scope py_scope.

(** A library call: no effect on the world of the script. *)
Definition call {A} (o : Outcome A) : M A := fun w => (o, w).

(** [try: body  except Exception as e: handler e]. *)
Definition try_except {A} (body : M A) (handler : exn -> M A) : M A :=
  fun w =>
    match body w with
    | (Returns a, w') => (Returns a, w')
    | (Raises e, w') => handler e w'
    end.

(** [for x in xs: s = body s x], the loop state [s] being the local
    variables the body assigns. *)
Fixpoint for_each {A S} (xs : list A) (body : S -> A -> M S) (s : S) : M S :=
  match xs with
  | [] => ret s
  | x :: xs' => s' <- body s x ;; for_each xs' body s'
  end.

(** Streamlit's functions, under the names the script calls them by. *)
Module st.

Definition emit (e : Element) : M unit :=
  fun w => (Returns tt,
            {| session_state := session_state w;
               page := page w ++ [e];
               requests := requests w;
               widget_keys := widget_keys w |}).

Definition title (body : string) : M unit := emit (Title body).
Definition markdown (body : string) : M unit := emit (Markdown body).
Definition subheader (body : string) : M unit := emit (Subheader body).
Definition write (body : string) : M unit := emit (Write body).
Definition error (body : string) : M unit := emit (Error body).
Definition warning (body : string) : M unit := emit (Warning body).
Definition success (body : string) : M unit := emit (Success body).
Definition info (body : string) : M unit := emit (Info body).
(** A widget that is given a [key] is registered in [st.session_state]
    under that key. *)
Definition register (key : string) : M unit :=
  fun w => (Returns tt,
            {| session_state := session_state w;
               page := page w;
               requests := requests w;
               widget_keys := {[key]} ∪ widget_keys w |}).

Definition download_button (label data file_name mime key help : string)
  : M unit :=
  emit (DownloadButton label data file_name mime key help) ;;
  register key.

(** [st.session_state.k]: an [AttributeError] when the key is absent. *)
Definition getattr (k : string) : M string :=
  fun w =>
    match session_state w !! k with
    | Some v => (Returns v, w)
    | None =>
        (Raises (Exception ("st.session_state has no attribute " +:+ k)), w)
    end.

(** [st.session_state.k = v]. *)
Definition setattr (k v : string) : M unit :=
  fun w => (Returns tt,
            {| session_state := <[k := v]> (session_state w);
               page := page w;
               requests := requests w;
               widget_keys := widget_keys w |}).

(** ['k' in st.session_state]. *)
Definition contains (k : string) : M bool :=
  fun w => (Returns (bool_decide (is_Some (session_state w !! k))), w).

End st.

(** ** The libraries *)

(** PyMuPDF: [fitz.open(stream=..., filetype="pdf")], iteration over the
    document's pages, [page.get_text()]. *)
Class PdfLibrary : Type := {
  PdfDocument : Type;
  Page : Type;
  fitz_open : bytes -> Outcome PdfDocument;
  pages : PdfDocument -> list Page;
  get_text : Page -> Outcome string
}.

(** python-docx: [Document(stream)], [doc.paragraphs], [para.text]. *)
Class DocxLibrary : Type := {
  DocxDocument : Type;
  Paragraph : Type;
  Document : bytes -> Outcome DocxDocument;
  paragraphs : DocxDocument -> list Paragraph;
  Paragraph_text : Paragraph -> Outcome string
}.

(** google.generativeai: [model.generate_content(prompt)] and the
    [text] property of its response. *)
Class GenerativeModel : Type := {
  Response : Type;
  generate_content : string -> Outcome Response;
  Response_text : Response -> Outcome string
}.

(** ** Text extraction *)

Section Extractors.
Context {fitz : PdfLibrary} {docx : DocxLibrary}.

Definition extract_text_pdf (file_bytes : bytes) : M string :=
  let text := "" in
  try_except
    (doc <- call (fitz_open file_bytes) ;;
     for_each (pages doc)
       (fun text page => t <- call (get_text page) ;; ret (text +:+ t))
       text)
    (fun e =>
       st.error ("Error extracting text from PDF: " +:+ str e) ;;
       ret "").

Definition extract_text_docx (file_bytes : bytes) : M string :=
  let text := "" in
  try_except
    (doc <- call (Document file_bytes) ;;
     for_each (paragraphs doc)
       (fun text para => t <- call (Paragraph_text para) ;;
                         ret (text +:+ (t +:+ LF)))
       text)
    (fun e =>
       st.error ("Error extracting text from Word document: " +:+ str e) ;;
       ret "").

End Extractors.

(** ** [os.path.splitext]

    CPython implements [posixpath.splitext] and [ntpath.splitext] through
    [genericpath._splitext]; the embedding follows that function. *)

Module genericpath.

(** [len(p)]. *)
Definition len (p : string) : Z := Z.of_nat (String.length p).

(** [p.rfind(c)] for a one-character string [c]: the highest index at
    which [c] occurs in [p], or [-1]. *)
Fixpoint rfind (p : string) (c : ascii) : Z :=
  match p with
  | EmptyString => -1
  | String a rest =>
      let r := rfind rest c in
      if 0 <=? r then r + 1
      else if Ascii.eqb a c then 0 else -1
  end.

(** A slice bound as Python normalises it: a negative bound counts from
    the end, and every bound is clipped to [0 .. len]. *)
Definition clip (n i : Z) : Z :=
  if i <? 0 then Z.max 0 (i + n) else Z.min i n.

(** [p[lo:hi]], an omitted bound being [None]. *)
Definition slice (p : string) (lo hi : option Z) : string :=
  let n := len p in
  let lo' := match lo with Some i => clip n i | None => 0 end in
  let hi' := match hi with Some i => clip n i | None => n end in
  substring (Z.to_nat lo') (Z.to_nat (hi' - lo')) p.

(** The loop of [_splitext] that skips the leading dots of the last path
    component:
    [while filenameIndex < dotIndex:
         if p[filenameIndex:filenameIndex+1] != extsep:
             return p[:dotIndex], p[dotIndex:]
         filenameIndex += 1]
    [Some r] is the [return r] inside the loop, [None] is falling out of it. *)
Equations? skip_leading_dots (p : string) (extsep : ascii)
    (dotIndex filenameIndex : Z) : option (string * string)
  by wf (Z.to_nat (dotIndex - filenameIndex)) lt :=
  skip_leading_dots p extsep dotIndex filenameIndex
    with Z_lt_dec filenameIndex dotIndex := {
    | left _ =>
        if negb (String.eqb
                   (slice p (Some filenameIndex) (Some (filenameIndex + 1)))
                   (String extsep ""))
        then Some (slice p None (Some dotIndex), slice p (Some dotIndex) None)
        else skip_leading_dots p extsep dotIndex (filenameIndex + 1)
    | right _ => None }.
Proof. lia. Qed.

Definition _splitext (p : string) (sep : ascii) (altsep : option ascii)
    (extsep : ascii) : string * string :=
  let sepIndex := rfind p sep in
  let sepIndex :=
    match altsep with
    | Some altsep =>
        let altsepIndex := rfind p altsep in
        Z.max sepIndex altsepIndex
    | None => sepIndex
    end in
  let dotIndex := rfind p extsep in
  let fallthrough := (p, slice p None (Some 0)) in
  if dotIndex >? sepIndex then
    (* skip all leading dots *)
    let filenameIndex := sepIndex + 1 in
    match skip_leading_dots p extsep dotIndex filenameIndex with
    | Some r => r
    | None => fallthrough
    end
  else fallthrough.

End genericpath.

(** The two flavours of [os.path]. *)
Inductive os_name : Type := posix | nt.

Module os_path.

Definition sep (os : os_name) : ascii :=
  match os with posix => "/"%char | nt => "\"%char end.

Definition altsep (os : os_name) : option ascii :=
  match os with posix => None | nt => Some "/"%char end.

Definition extsep : ascii := "."%char.

Definition splitext (os : os_name) (p : string) : string * string :=
  genericpath._splitext p (sep os) (altsep os) extsep.

End os_path.

(** File names with an extension.  [c] separates path components on
    [os]; a base name holds no separator and a character that is not a
    dot; an extension holds neither a separator nor a dot. *)
Definition is_separator (os : os_name) (c : ascii) : bool :=
  Ascii.eqb c (os_path.sep os) ||
  match os_path.altsep os with
  | Some altsep => Ascii.eqb c altsep
  | None => false
  end.

Definition is_base_name (os : os_name) (base : string) : bool :=
  forallb (fun c => negb (is_separator os c)) (list_ascii_of_string base) &&
  existsb (fun c => negb (Ascii.eqb c os_path.extsep)) (list_ascii_of_string base).

Definition is_extension (os : os_name) (ext : string) : bool :=
  forallb (fun c => negb (is_separator os c) && negb (Ascii.eqb c os_path.extsep))
    (list_ascii_of_string ext).

(** ** The script *)

(** What the input widgets return in one run of the script.  The widgets
    themselves are drawn on every run and are not listed in the page.  A
    run in which the call of a widget itself raises (Streamlit refusing
    the file put in the uploader, for instance) stops at that call: it
    has no [Widgets] and is not described here. *)

(** [st.radio]: one of its two options, so that exactly one of the
    tests [doc_type == "PDF (.pdf)"] and
    [doc_type == "Word Document (.docx)"] holds. *)
Inductive DocType : Type :=
| PDF    (* "PDF (.pdf)" *)
| DOCX.  (* "Word Document (.docx)" *)

(** The object [st.file_uploader] returns for an uploaded file. *)
Record UploadedFile : Type := mkUploadedFile {
  name : string;
  read : bytes
}.

Record Widgets : Type := mkWidgets {
  doc_type : DocType;
  uploaded_file : option UploadedFile;  (* [None] when the uploader is empty *)
  button : bool                         (* [st.button("Summarize Notes")] *)
}.

Section Script.
Context {fitz : PdfLibrary} {docx : DocxLibrary} {model : GenerativeModel}.

(** [os.getenv("GEMINI_API_KEY")] and the platform of [os.path]. *)
Variable GEMINI_API_KEY : option string.
Variable os : os_name.

(** Lines 15-21: when the key is set, [genai] is configured and [model]
    is bound; neither renders anything. *)
Definition configure : M unit :=
  if negb (bool_of GEMINI_API_KEY) then
    st.error "Gemini API key not found. Please set GEMINI_API_KEY in your .env file."
  else ret tt.

(** Lines 24-28.  [st.set_page_config] names the browser tab and puts
    nothing on the page. *)
Definition header : M unit :=
  st.title "📚 Student Notes Summarizer" ;;
  st.markdown "
    Upload your notes (PDF or Word) and I'll help you summarize them!
".

(** Lines 73-78. *)
Definition init_session_state : M unit :=
  present <- st.contains "full_notes_text" ;;
  (if negb present then st.setattr "full_notes_text" "" else ret tt) ;;
  present <- st.contains "summarized_text" ;;
  (if negb present then st.setattr "summarized_text" "" else ret tt) ;;
  present <- st.contains "uploaded_file_name" ;;
  (if negb present then st.setattr "uploaded_file_name" "" else ret tt).

(** Lines 94-110. *)
Definition process_uploaded_file (doc_type : DocType)
    (uploaded_file : option UploadedFile) : M unit :=
  match uploaded_file with
  | Some uploaded_file =>
      let file_bytes := read uploaded_file in
      match doc_type with
      | PDF =>
          text <- extract_text_pdf file_bytes ;;
          st.setattr "full_notes_text" text
      | DOCX =>
          text <- extract_text_docx file_bytes ;;
          st.setattr "full_notes_text" text
      end ;;
      st.setattr "uploaded_file_name" (name uploaded_file) ;;
      full_notes_text <- st.getattr "full_notes_text" ;;
      if bool_of full_notes_text then
        uploaded_file_name <- st.getattr "uploaded_file_name" ;;
        st.success (uploaded_file_name +:+ " uploaded and text extracted successfully!") ;;
        st.info "Now, click 'Summarize Notes' to get your summary!"
      else
        st.warning "Could not extract text from the document. Please try another file."
  | None => ret tt
  end.

Definition prompt_instructions : string :=
  "Please provide a concise and clear summary of the following student notes. " +:+
  "Focus on the main concepts, key facts, and important details. " +:+
  "Organize the summary logically, perhaps using bullet points or short paragraphs. " +:+
  "Ensure the summary is easy to understand for a student revising the material. " +:+
  "Here are the notes:" +:+ LF +:+ LF.

(** [model.generate_content(prompt)]: the request goes out, then the
    service answers or the call raises. *)
Definition model_generate_content (prompt : string) : M Response :=
  fun w =>
    (generate_content prompt,
     {| session_state := session_state w;
        page := page w;
        requests := requests w ++ [prompt];
        widget_keys := widget_keys w |}).

(** Lines 113-135.  The spinner of line 115 is on the page only while
    its block runs and is not part of the rendered page. *)
Definition summarize_button (clicked : bool) : M unit :=
  if clicked then
    full_notes_text <- st.getattr "full_notes_text" ;;
    if bool_of full_notes_text && bool_of GEMINI_API_KEY then
      try_except
        (full_notes_text <- st.getattr "full_notes_text" ;;
         let prompt := prompt_instructions +:+ full_notes_text in
         response <- model_generate_content prompt ;;
         text <- call (Response_text response) ;;
         st.setattr "summarized_text" text)
        (fun e =>
           st.error ("Error generating summary from Gemini: " +:+ str e) ;;
           st.setattr "summarized_text" "")
    else if negb (bool_of GEMINI_API_KEY) then
      st.error "Cannot summarize without a Gemini API key. Please check your setup."
    else
      st.warning "Please upload a document first before attempting to summarize."
  else ret tt.

(** Lines 140-151. *)
Definition display_summary : M unit :=
  summarized_text <- st.getattr "summarized_text" ;;
  if bool_of summarized_text then
    st.markdown "---" ;;
    st.subheader "Summarized Notes ✨" ;;
    summarized_text <- st.getattr "summarized_text" ;;
    st.write summarized_text ;;
    summarized_text <- st.getattr "summarized_text" ;;
    uploaded_file_name <- st.getattr "uploaded_file_name" ;;
    st.download_button
      "Download Summarized Notes ⬇️"
      summarized_text
      ("summarized_notes_" +:+ fst (os_path.splitext os uploaded_file_name) +:+ ".txt")
      "text/plain"
      "download_summarized_notes"
      "Click to download the summary as a text file."
  else ret tt.

(** Lines 154-155. *)
Definition upload_instructions (uploaded_file : option UploadedFile) : M unit :=
  match uploaded_file with
  | Some _ => ret tt
  | None =>
      full_notes_text <- st.getattr "full_notes_text" ;;
      if negb (bool_of full_notes_text) then
        st.info "Please upload your notes (PDF or Word) to begin summarization. ☝️"
      else ret tt
  end.

(** One run of the script, top to bottom. *)
Definition script (widgets : Widgets) : M unit :=
  configure ;;
  header ;;
  init_session_state ;;
  process_uploaded_file (doc_type widgets) (uploaded_file widgets) ;;
  summarize_button (button widgets) ;;
  display_summary ;;
  upload_instructions (uploaded_file widgets).

(** A run starts from the entries the script has assigned in the
    session so far, with an empty page and no widget rendered yet. *)
Definition run (widgets : Widgets) (session : gmap string string)
  : Outcome unit * World :=
  script widgets
    {| session_state := session; page := []; requests := [];
       widget_keys := ∅ |}.

End Script.

(** ** What the specification says the extractors return *)

(** [P1 + "\n" + P2 + "\n" + ... + Pn + "\n"]. *)
Fixpoint paragraphs_joined (Ps : list string) : string :=
  match Ps with
  | [] => ""
  | P :: Ps' => P +:+ LF +:+ paragraphs_joined Ps'
  end.

(** The page texts one after the other, nothing in between. *)
Fixpoint pages_concatenated (Ts : list string) : string :=
  match Ts with
  | [] => ""
  | T :: Ts' => T +:+ pages_concatenated Ts'
  end.

(** The first element of a list on which the library call [f] raises
    does so with [e]; the calls before it return. *)
Inductive fails_at {A} (f : A -> Outcome string) (e : exn) : list A -> Prop :=
| fails_here x xs : f x = Raises e -> fails_at f e (x :: xs)
| fails_later x t xs : f x = Returns t -> fails_at f e xs -> fails_at f e (x :: xs).

(** The texts [g t] of a list, one after the other. *)
Fixpoint joined (g : string -> string) (ts : list string) : string :=
  match ts with
  | [] => ""
  | t :: ts' => g t +:+ joined g ts'
  end.

Section Extraction.
Context {fitz : PdfLibrary} {docx : DocxLibrary}.

(** The extractor the upload block runs for a document type. *)
Definition extractor (doc_type : DocType) : bytes -> M string :=
  match doc_type with
  | PDF => extract_text_pdf
  | DOCX => extract_text_docx
  end.

(** Parsing [file_bytes] as a document of the declared type fails with
    [e]: opening the document raises [e], or the document opens and [e]
    is raised by the first page or paragraph whose text cannot be read. *)
Definition parse_fails (doc_type : DocType) (file_bytes : bytes) (e : exn) : Prop :=
  match doc_type with
  | PDF =>
      fitz_open file_bytes = Raises e \/
      exists doc, fitz_open file_bytes = Returns doc /\ fails_at get_text e (pages doc)
  | DOCX =>
      Document file_bytes = Raises e \/
      exists doc, Document file_bytes = Returns doc /\
                  fails_at Paragraph_text e (paragraphs doc)
  end.

(** The banner an extractor shows for a failure. *)
Definition extraction_error (doc_type : DocType) (e : exn) : Element :=
  match doc_type with
  | PDF => Error ("Error extracting text from PDF: " +:+ str e)
  | DOCX => Error ("Error extracting text from Word document: " +:+ str e)
  end.

(** Extraction of [file_bytes] yields [text], whatever the session. *)
Definition extraction_yields (doc_type : DocType) (file_bytes : bytes)
    (text : string) : Prop :=
  forall w, fst (extractor doc_type file_bytes w) = Returns text.

End Extraction.

(** The download button of lines 144-151, offering [data] under
    [file_name]. *)
Definition download_offer (data file_name : string) : Element :=
  DownloadButton "Download Summarized Notes ⬇️" data file_name "text/plain"
    "download_summarized_notes" "Click to download the summary as a text file.".

(** The dictionary after [if k not in d: d[k] = v]. *)
Definition setdefault (k v : string) (d : gmap string string)
  : gmap string string :=
  if bool_decide (is_Some (d !! k)) then d else <[k := v]> d.

(** The session dictionary after lines 73-78. *)
Definition initialised (session : gmap string string) : gmap string string :=
  setdefault "uploaded_file_name" ""
    (setdefault "summarized_text" ""
       (setdefault "full_notes_text" "" session)).

(** The world after more elements are rendered. *)
Definition rendering (w : World) (es : list Element) : World :=
  {| session_state := session_state w;
     page := page w ++ es;
     requests := requests w;
     widget_keys := widget_keys w |}.

(** The world after more widget keys are registered. *)
Definition registering (w : World) (ks : gset string) : World :=
  {| session_state := session_state w;
     page := page w;
     requests := requests w;
     widget_keys := ks ∪ widget_keys w |}.

(** ** Stub libraries

    Small implementations of the three interfaces, on which the script
    can be run. *)

Module Stub.

(** Split [bs] at every occurrence of the byte [d]. *)
Fixpoint split_on (d : byte) (bs : list byte) : list (list byte) :=
  match bs with
  | [] => [[]]
  | b :: bs' =>
      match split_on d bs' with
      | chunk :: chunks =>
          if Byte.eqb b d then [] :: chunk :: chunks
          else (b :: chunk) :: chunks
      | [] => [[b]]
      end
  end.

(** A PDF here is the byte ["%"], then pages separated by form feeds; a
    page holding a NUL byte cannot be decoded. *)
#[export] Instance pdf : PdfLibrary := {|
  PdfDocument := list (list byte);
  Page := list byte;
  fitz_open bs :=
    match bs with
    | x25 :: rest => Returns (split_on x0c rest)
    | _ => Raises (Exception "Failed to open stream")
    end;
  pages doc := doc;
  get_text p :=
    if existsb (Byte.eqb x00) p then Raises (Exception "cannot decode page")
    else Returns (string_of_list_byte p)
|}.

(** A DOCX here is the bytes ["PK"], then paragraphs separated by line
    feeds. *)
#[export] Instance docx : DocxLibrary := {|
  DocxDocument := list (list byte);
  Paragraph := list byte;
  Document bs :=
    match bs with
    | x50 :: x4b :: rest => Returns (split_on x0a rest)
    | _ => Raises (Exception "File is not a zip file")
    end;
  paragraphs doc := doc;
  Paragraph_text p := Returns (string_of_list_byte p)
|}.

(** A generation service that answers every prompt with [reply]. *)
Definition answering (reply : string) : GenerativeModel := {|
  Response := string;
  generate_content _ := Returns reply;
  Response_text r := Returns r
|}.

(** A generation service whose every call raises. *)
Definition failing (cause : string) : GenerativeModel := {|
  Response := string;
  generate_content _ := Raises (Exception cause);
  Response_text r := Returns r
|}.

(** A generation service whose response carries no text: reading
    [response.text] raises. *)
Definition blocked (cause : string) : GenerativeModel := {|
  Response := unit;
  generate_content _ := Returns tt;
  Response_text _ := Raises (Exception cause)
|}.

Definition to_bytes (s : string) : bytes := list_byte_of_string s.

(** A world at the start of a run, from the entries of its session. *)
Definition world (entries : list (string * string)) : World :=
  {| session_state := list_to_map entries; page := []; requests := [];
     widget_keys := ∅ |}.

(** A session left by work on an earlier document [old.pdf]. *)
Definition earlier_session : list (string * string) :=
  [("full_notes_text", "old notes");
   ("summarized_text", "old summary");
   ("uploaded_file_name", "old.pdf")].

(** A fresh, initialised session. *)
Definition fresh_session : list (string * string) :=
  [("full_notes_text", ""); ("summarized_text", ""); ("uploaded_file_name", "")].

(** Uploads: a file the stub PDF library rejects, a PDF with no text, a
    PDF of two pages and a DOCX of two paragraphs. *)
Definition garbage_pdf : UploadedFile :=
  {| name := "new.pdf"; read := to_bytes "not a pdf" |}.

Definition blank_pdf : UploadedFile :=
  {| name := "blank.pdf"; read := to_bytes "%" |}.

Definition two_page_pdf : UploadedFile :=
  {| name := "chemistry.pdf";
     read := to_bytes "%atoms " ++ [x0c] ++ to_bytes "bonds" |}.

Definition two_paragraph_docx : UploadedFile :=
  {| name := "history.docx";
     read := to_bytes "PKRome" ++ [x0a] ++ to_bytes "Carthage" |}.

(** A DOCX whose only paragraph is empty. *)
Definition empty_paragraph_docx : UploadedFile :=
  {| name := "empty.docx"; read := to_bytes "PK" |}.

(** The widgets of a run in which [file] is in the PDF uploader. *)
Definition pdf_widgets (file : option UploadedFile) (clicked : bool) : Widgets :=
  {| doc_type := PDF; uploaded_file := file; button := clicked |}.

End Stub.

(** ** Notions for the properties of whole runs *)

(** The entries the script keeps in the session. *)
Definition session_keys : list string :=
  ["full_notes_text"; "summarized_text"; "uploaded_file_name"].

Section Backend.
Context {model : GenerativeModel}.

(** What the [try] block of lines 116-127 gets from the service for a
    prompt: the text of the response, or the exception raised by the
    request or by reading [response.text]. *)
Definition backend (prompt : string) : Outcome string :=
  match generate_content prompt with
  | Returns response => Response_text response
  | Raises e => Raises e
  end.

(** What a Summarize attempt on the extracted text [T] leaves as the
    stored summary, and what it renders. *)
Definition attempted_summary (T : string) : string :=
  match backend (prompt_instructions +:+ T) with
  | Returns summary => summary
  | Raises _ => ""
  end.

Definition attempt_banner (T : string) : list Element :=
  match backend (prompt_instructions +:+ T) with
  | Returns _ => []
  | Raises e => [Error ("Error generating summary from Gemini: " +:+ str e)]
  end.

(** What the Summarize handler renders in a session whose extracted text
    is [T]. *)
Definition summarize_banner (GEMINI_API_KEY : option string) (clicked : bool)
    (T : string) : list Element :=
  if clicked && bool_of T && bool_of GEMINI_API_KEY then attempt_banner T
  else if clicked then
    if bool_of GEMINI_API_KEY then
      [Warning "Please upload a document first before attempting to summarize."]
    else
      [Error "Cannot summarize without a Gemini API key. Please check your setup."]
  else [].

End Backend.

(** The notice that ends the upload block for the file named
    [uploaded_file_name] and the extracted [text]. *)
Definition upload_notice (uploaded_file_name text : string) : list Element :=
  if bool_of text then
    [Success (uploaded_file_name +:+ " uploaded and text extracted successfully!");
     Info "Now, click 'Summarize Notes' to get your summary!"]
  else
    [Warning "Could not extract text from the document. Please try another file."].

(** The name under which the display block offers the download. *)
Definition download_name (os : os_name) (uploaded_file_name : string) : string :=
  "summarized_notes_" +:+ fst (os_path.splitext os uploaded_file_name) +:+ ".txt".

(** What the display block of lines 140-151 shows for a session. *)
Definition displayed (os : os_name) (session : gmap string string)
  : list Element :=
  match session !! "summarized_text", session !! "uploaded_file_name" with
  | Some summary, Some uploaded_file_name =>
      if bool_of summary then
        [Markdown "---"; Subheader "Summarized Notes ✨"; Write summary;
         download_offer summary (download_name os uploaded_file_name)]
      else []
  | _, _ => []
  end.

(** The key of the download button of line 149. *)
Definition download_key : string := "download_summarized_notes".

(** The widget keys the display block registers for a session: the key
    of the download button when the button is rendered. *)
Definition displayed_keys (session : gmap string string) : gset string :=
  match session !! "summarized_text", session !! "uploaded_file_name" with
  | Some summary, Some _ => if bool_of summary then {[download_key]} else ∅
  | _, _ => ∅
  end.

(** What lines 154-155 show at the end of a run. *)
Definition upload_hint (uploaded_file : option UploadedFile)
    (session : gmap string string) : list Element :=
  match uploaded_file, session !! "full_notes_text" with
  | None, Some "" =>
      [Info "Please upload your notes (PDF or Word) to begin summarization. ☝️"]
  | _, _ => []
  end.

(** What lines 15-16 show at the start of a run. *)
Definition startup_banner (GEMINI_API_KEY : option string) : list Element :=
  if bool_of GEMINI_API_KEY then []
  else [Error "Gemini API key not found. Please set GEMINI_API_KEY in your .env file."].

(** The download buttons among the elements of a page, in order. *)
Definition is_download_button (e : Element) : bool :=
  match e with
  | DownloadButton _ _ _ _ _ _ => true
  | _ => false
  end.

Definition download_buttons (es : list Element) : list Element :=
  List.filter is_download_button es.

(** * Properties *)

(** ** Strings *)

Lemma append_nil_l (s : string) : "" +:+ s = s.
Proof. reflexivity. Qed.

Lemma append_cons (a : ascii) (s t : string) :
  String a s +:+ t = String a (s +:+ t).
Proof. reflexivity. Qed.

Lemma append_nil_r (s : string) : s +:+ "" = s.
Proof.
  induction s as [|a s IH]; [reflexivity|].
  now rewrite append_cons, IH.
Qed.

Lemma append_assoc (s t u : string) : (s +:+ t) +:+ u = s +:+ (t +:+ u).
Proof.
  induction s as [|a s IH]; [reflexivity|].
  now rewrite !append_cons, IH.
Qed.

(** ** Worlds *)

Lemma rendering_nil (w : World) : rendering w [] = w.
Proof. destruct w; unfold rendering; cbn. now rewrite app_nil_r. Qed.

Lemma registering_empty (w : World) : registering w ∅ = w.
Proof. destruct w; unfold registering; cbn. now rewrite union_empty_l_L. Qed.

(** ** Loops over library calls *)

Section Loops.
Context {A : Type} (f : A -> Outcome string) (g : string -> string).

Lemma for_each_returns (xs : list A) (ts : list string) (acc : string) (w : World) :
  Forall2 (fun x t => f x = Returns t) xs ts ->
  for_each xs (fun text x => t <- call (f x) ;; ret (text +:+ g t)) acc w =
    (Returns (acc +:+ joined g ts), w).
Proof.
  intros Hall. revert acc.
  induction Hall as [|x t xs ts Hx _ IH]; intros acc; cbn.
  - now rewrite append_nil_r.
  - unfold bind at 1 2, call at 1, ret at 1. rewrite Hx.
    rewrite IH. now rewrite append_assoc.
Qed.

Lemma for_each_raises (xs : list A) (e : exn) (acc : string) (w : World) :
  fails_at f e xs ->
  for_each xs (fun text x => t <- call (f x) ;; ret (text +:+ g t)) acc w =
    (Raises e, w).
Proof.
  intros Hfail. revert acc.
  induction Hfail as [x xs Hx | x t xs Hx _ IH]; intros acc; cbn;
    unfold bind at 1 2, call at 1, ret at 1; rewrite Hx.
  - reflexivity.
  - apply IH.
Qed.

(** A loop of library calls never touches the world. *)
Lemma for_each_world (xs : list A) (acc : string) (w : World) :
  snd (for_each xs (fun text x => t <- call (f x) ;; ret (text +:+ g t)) acc w)
  = w.
Proof.
  revert acc. induction xs as [|x xs IH]; intros acc; cbn; [reflexivity|].
  unfold bind at 1 2, call at 1, ret at 1.
  destruct (f x) as [t|e]; cbn; [apply IH | reflexivity].
Qed.

End Loops.

(** ** The extractors *)

Lemma joined_pages (Ts : list string) :
  joined (fun t => t) Ts = pages_concatenated Ts.
Proof. induction Ts as [|T Ts IH]; cbn; [reflexivity | now rewrite IH]. Qed.

Lemma joined_paragraphs (Ps : list string) :
  joined (fun t => t +:+ LF) Ps = paragraphs_joined Ps.
Proof.
  induction Ps as [|P Ps IH]; cbn; [reflexivity|].
  now rewrite IH, append_assoc.
Qed.

Section ExtractorProperties.
Context {fitz : PdfLibrary} {docx : DocxLibrary}.

(** C6.  For a well-formed PDF (the document opens and every page's text
    can be read) whose pages, in page order, have the texts [Ts],
    [extract_text_pdf] returns those texts concatenated in page order
    with nothing inserted between them, and renders nothing. *)
Theorem extract_text_pdf_concatenates_pages
    (file_bytes : bytes) (doc : PdfDocument) (Ts : list string) (w : World) :
  fitz_open file_bytes = Returns doc ->
  Forall2 (fun page T => get_text page = Returns T) (pages doc) Ts ->
  extract_text_pdf file_bytes w = (Returns (pages_concatenated Ts), w).
Proof.
  intros Hopen Htexts.
  pose proof (for_each_returns get_text (fun t => t) _ _ "" w Htexts) as Hloop.
  unfold extract_text_pdf, try_except, bind at 1, call at 1. rewrite Hopen.
  cbn beta iota in *. rewrite Hloop.
  now rewrite append_nil_l, joined_pages.
Qed.

(** C5.  For a well-formed DOCX (the document opens and every paragraph's
    text can be read) whose paragraphs, in document order, have the texts
    [P1..Pn], [extract_text_docx] returns
    [P1 + "\n" + P2 + "\n" + ... + Pn + "\n"], and renders nothing. *)
Theorem extract_text_docx_joins_paragraphs
    (file_bytes : bytes) (doc : DocxDocument) (Ps : list string) (w : World) :
  Document file_bytes = Returns doc ->
  Forall2 (fun para P => Paragraph_text para = Returns P) (paragraphs doc) Ps ->
  extract_text_docx file_bytes w = (Returns (paragraphs_joined Ps), w).
Proof.
  intros Hopen Htexts.
  pose proof (for_each_returns Paragraph_text (fun t => t +:+ LF) _ _ "" w Htexts)
    as Hloop.
  unfold extract_text_docx, try_except, bind at 1, call at 1. rewrite Hopen.
  cbn beta iota in *. rewrite Hloop.
  now rewrite append_nil_l, joined_paragraphs.
Qed.

(** Whatever the bytes, an extractor returns, no exception leaves it:
    either it returns the text it read and renders nothing, or it
    returns the empty string and renders the error banner of a failure. *)
Lemma extractor_returns (doc_type : DocType) (file_bytes : bytes) (w : World) :
  (exists text, extractor doc_type file_bytes w = (Returns text, w)) \/
  (exists e, extractor doc_type file_bytes w =
               (Returns "", rendering w [extraction_error doc_type e])).
Proof.
  destruct doc_type; cbn [extractor extraction_error].
  - unfold extract_text_pdf, try_except.
    destruct (fitz_open file_bytes) as [doc|e] eqn:Hopen.
    + pose proof (for_each_world get_text (fun t => t) (pages doc) "" w) as Hw.
      cbn beta iota in Hw.
      destruct (for_each _ _ _ _) as [[text|e] w'] eqn:Hloop;
        cbn in Hw; subst w'; [left; exists text | right; exists e];
        unfold bind at 1, call at 1; cbn beta iota; now rewrite Hloop.
    + right. now exists e.
  - unfold extract_text_docx, try_except.
    destruct (Document file_bytes) as [doc|e] eqn:Hopen.
    + pose proof (for_each_world Paragraph_text (fun t => t +:+ LF)
                    (paragraphs doc) "" w) as Hw.
      cbn beta iota in Hw.
      destruct (for_each _ _ _ _) as [[text|e] w'] eqn:Hloop;
        cbn in Hw; subst w'; [left; exists text | right; exists e];
        unfold bind at 1, call at 1; cbn beta iota; now rewrite Hloop.
    + right. now exists e.
Qed.

(** An extraction that yields [text] returns it and renders at most its
    error banner; it renders nothing when [text] is not empty. *)
Lemma extraction_yields_run (doc_type : DocType) (file_bytes : bytes)
    (text : string) (w : World) :
  extraction_yields doc_type file_bytes text ->
  exists es,
    extractor doc_type file_bytes w = (Returns text, rendering w es) /\
    (es = [] \/ text = "" /\ exists e, es = [extraction_error doc_type e]).
Proof.
  intros Hyields. specialize (Hyields w).
  destruct (extractor_returns doc_type file_bytes w) as [[t Hrun] | [e Hrun]];
    rewrite Hrun in Hyields; cbn in Hyields; injection Hyields as <-.
  - exists []. rewrite rendering_nil. tauto.
  - exists [extraction_error doc_type e]. eauto.
Qed.

(** C7.  When parsing the bytes as a document of the declared format
    fails with [e], the extractor of that format catches [e]: it returns
    normally, its result is the empty string, and the only trace of the
    failure is the error banner naming [e]. *)
Theorem extractor_catches_parse_failure
    (doc_type : DocType) (file_bytes : bytes) (e : exn) (w : World) :
  parse_fails doc_type file_bytes e ->
  extractor doc_type file_bytes w =
    (Returns "", rendering w [extraction_error doc_type e]).
Proof.
  destruct doc_type; cbn [extractor parse_fails extraction_error].
  - unfold extract_text_pdf, try_except, bind at 1, call at 1.
    intros [Hopen | (doc & Hopen & Hpage)]; rewrite Hopen; [reflexivity|].
    pose proof (for_each_raises get_text (fun t => t) _ e "" w Hpage) as Hloop.
    cbn beta iota in *. now rewrite Hloop.
  - unfold extract_text_docx, try_except, bind at 1, call at 1.
    intros [Hopen | (doc & Hopen & Hpara)]; rewrite Hopen; [reflexivity|].
    pose proof (for_each_raises Paragraph_text (fun t => t +:+ LF) _ e "" w Hpara)
      as Hloop.
    cbn beta iota in *. now rewrite Hloop.
Qed.

End ExtractorProperties.

(** ** Running script fragments *)

Lemma bind_returns {A B} (m : M A) (k : A -> M B) (a : A) (w w' : World) :
  m w = (Returns a, w') -> bind m k w = k a w'.
Proof. intros Hm. unfold bind. now rewrite Hm. Qed.

Lemma getattr_present (k v : string) (w : World) :
  session_state w !! k = Some v -> st.getattr k w = (Returns v, w).
Proof. intros Hk. unfold st.getattr. now rewrite Hk. Qed.

Lemma getattr_world (k : string) (w : World) : snd (st.getattr k w) = w.
Proof. unfold st.getattr. now destruct (session_state w !! k). Qed.

(** Unfold the rendering functions and bring the page to a normal form. *)
Ltac rendered :=
  unfold st.title, st.markdown, st.subheader, st.write, st.error, st.warning,
    st.success, st.info, st.download_button, st.emit, st.register, bind, ret,
    rendering, registering;
  cbn [session_state page requests widget_keys fst snd];
  rewrite <- ?app_assoc; cbn [app];
  try reflexivity.

(** ** The Summarize button *)

Section SummarizeProperties.
Context {model : GenerativeModel}.
Variable GEMINI_API_KEY : option string.

(** With a failed precondition the handler only renders. *)
Lemma summarize_only_renders (clicked : bool) (w : World) :
  session_state w !! "full_notes_text" = Some "" \/ bool_of GEMINI_API_KEY = false ->
  exists o es, summarize_button GEMINI_API_KEY clicked w = (o, rendering w es).
Proof.
  intros Hpre. unfold summarize_button.
  destruct clicked; [|exists (Returns tt), []; now rewrite rendering_nil].
  destruct Hpre as [Hempty | Hkey].
  - rewrite (bind_returns _ _ _ _ _ (getattr_present _ _ _ Hempty)).
    cbn [bool_of str_truthy andb].
    destruct (negb (bool_of GEMINI_API_KEY)); eexists _, [_]; reflexivity.
  - unfold bind at 1.
    pose proof (getattr_world "full_notes_text" w) as Hw.
    destruct (st.getattr "full_notes_text" w) as [[t|e] w'];
      cbn in Hw; subst w'.
    + rewrite Hkey, andb_false_r. eexists _, [_]; reflexivity.
    + exists (Raises e), []. now rewrite rendering_nil.
Qed.

(** C3.  Summarize is a no-op on the session when a precondition fails:
    with an empty ExtractedText, whatever the credential, and with no
    credential configured, whatever the session holds.  The whole
    session dictionary is left as it was and no request is sent. *)
Theorem summarize_noop_when_precondition_fails (clicked : bool) (w : World) :
  session_state w !! "full_notes_text" = Some "" \/ bool_of GEMINI_API_KEY = false ->
  session_state (snd (summarize_button GEMINI_API_KEY clicked w)) = session_state w /\
  requests (snd (summarize_button GEMINI_API_KEY clicked w)) = requests w.
Proof.
  intros Hpre.
  destruct (summarize_only_renders clicked w Hpre) as (o & es & ->).
  split; reflexivity.
Qed.

(** In an initialised session the handler then returns normally. *)
Lemma summarize_renders_when_precondition_fails
    (clicked : bool) (T : string) (w : World) :
  session_state w !! "full_notes_text" = Some T ->
  T = "" \/ bool_of GEMINI_API_KEY = false ->
  exists es, summarize_button GEMINI_API_KEY clicked w = (Returns tt, rendering w es).
Proof.
  intros HT Hpre. unfold summarize_button.
  destruct clicked; [|exists []; now rewrite rendering_nil].
  rewrite (bind_returns _ _ _ _ _ (getattr_present _ _ _ HT)).
  assert (bool_of T && bool_of GEMINI_API_KEY = false) as ->.
  { destruct Hpre as [-> | ->]; [reflexivity | apply andb_false_r]. }
  destruct (negb (bool_of GEMINI_API_KEY)); eexists [_]; reflexivity.
Qed.

(** C2, amended.  When Summarize is clicked with an empty ExtractedText
    and a credential configured, the handler shows the EmptyInput
    warning banner, and that banner is all it shows. *)
Theorem summarize_empty_input_warning (w : World) :
  session_state w !! "full_notes_text" = Some "" ->
  bool_of GEMINI_API_KEY = true ->
  summarize_button GEMINI_API_KEY true w =
    (Returns tt,
     rendering w
       [Warning "Please upload a document first before attempting to summarize."]).
Proof.
  intros Hempty Hkey. unfold summarize_button.
  rewrite (bind_returns _ _ _ _ _ (getattr_present _ _ _ Hempty)).
  cbn [bool_of str_truthy andb]. now rewrite Hkey.
Qed.

(** C8.  When Summarize is clicked with a non-empty ExtractedText [T] and
    a configured credential, and the backend answers the one request with
    a response whose text payload is [S], the stored Summary becomes
    exactly [S]; nothing else in the session changes and nothing is
    rendered by the handler. *)
Theorem summarize_stores_response_text
    (T S : string) (response : Response) (w : World) :
  session_state w !! "full_notes_text" = Some T ->
  bool_of T = true ->
  bool_of GEMINI_API_KEY = true ->
  generate_content (prompt_instructions +:+ T) = Returns response ->
  Response_text response = Returns S ->
  summarize_button GEMINI_API_KEY true w =
    (Returns tt,
     {| session_state := <["summarized_text" := S]> (session_state w);
        page := page w;
        requests := requests w ++ [prompt_instructions +:+ T];
        widget_keys := widget_keys w |}).
Proof.
  intros HT Hnonempty Hkey Hgen Htext.
  unfold summarize_button.
  rewrite (bind_returns _ _ _ _ _ (getattr_present _ _ _ HT)).
  rewrite Hnonempty, Hkey. cbn [andb].
  unfold try_except.
  rewrite (bind_returns _ _ _ _ _ (getattr_present _ _ _ HT)).
  unfold bind at 1, model_generate_content. rewrite Hgen.
  unfold bind, call. rewrite Htext. reflexivity.
Qed.

(** C4.  When Summarize is clicked with a non-empty ExtractedText [T] and
    a configured credential, and the backend call raises [e] (the request
    itself, or reading the text of its response), the stored Summary is
    reset to the empty string, whatever it held before; the failure is
    reported in an error banner and the rest of the session is kept. *)
Theorem summarize_failure_clears_summary (T : string) (e : exn) (w : World) :
  session_state w !! "full_notes_text" = Some T ->
  bool_of T = true ->
  bool_of GEMINI_API_KEY = true ->
  generate_content (prompt_instructions +:+ T) = Raises e \/
  (exists response, generate_content (prompt_instructions +:+ T) = Returns response /\
                    Response_text response = Raises e) ->
  summarize_button GEMINI_API_KEY true w =
    (Returns tt,
     {| session_state := <["summarized_text" := ""]> (session_state w);
        page := page w ++ [Error ("Error generating summary from Gemini: " +:+ str e)];
        requests := requests w ++ [prompt_instructions +:+ T];
        widget_keys := widget_keys w |}).
Proof.
  intros HT Hnonempty Hkey Hraise.
  unfold summarize_button.
  rewrite (bind_returns _ _ _ _ _ (getattr_present _ _ _ HT)).
  rewrite Hnonempty, Hkey. cbn [andb].
  unfold try_except.
  rewrite (bind_returns _ _ _ _ _ (getattr_present _ _ _ HT)).
  unfold bind at 1, model_generate_content.
  destruct Hraise as [Hgen | (response & Hgen & Htext)]; rewrite Hgen.
  - reflexivity.
  - unfold bind at 1, call. rewrite Htext. reflexivity.
Qed.

End SummarizeProperties.

(** ** The upload block *)

Section UploadProperties.
Context {fitz : PdfLibrary} {docx : DocxLibrary}.

(** What the upload block does once the extractor has returned [text]. *)
Lemma process_uploaded_file_run (doc_type : DocType) (f : UploadedFile)
    (text : string) (es : list Element) (w : World) :
  extractor doc_type (read f) w = (Returns text, rendering w es) ->
  process_uploaded_file doc_type (Some f) w =
    (Returns tt,
     {| session_state :=
          <["uploaded_file_name" := name f]>
            (<["full_notes_text" := text]> (session_state w));
        page :=
          page w ++ es ++
          (if bool_of text
           then [Success (name f +:+ " uploaded and text extracted successfully!");
                 Info "Now, click 'Summarize Notes' to get your summary!"]
           else [Warning "Could not extract text from the document. Please try another file."]);
        requests := requests w;
        widget_keys := widget_keys w |}).
Proof.
  intros Hrun. unfold process_uploaded_file.
  assert (Hstore :
    match doc_type with
    | PDF => text <- extract_text_pdf (read f) ;; st.setattr "full_notes_text" text
    | DOCX => text <- extract_text_docx (read f) ;; st.setattr "full_notes_text" text
    end w =
    (Returns tt,
     {| session_state := <["full_notes_text" := text]> (session_state w);
        page := page w ++ es;
        requests := requests w;
        widget_keys := widget_keys w |})).
  { destruct doc_type; cbn [extractor] in Hrun;
      now rewrite (bind_returns _ _ _ _ _ Hrun). }
  rewrite (bind_returns _ _ _ _ _ Hstore).
  unfold bind at 1, st.setattr at 1. cbn [session_state page requests].
  erewrite bind_returns; cycle 1.
  { apply getattr_present. cbn [session_state].
    rewrite lookup_insert_ne by discriminate. apply lookup_insert_eq. }
  destruct (bool_of text).
  - erewrite bind_returns; cycle 1.
    { apply getattr_present. cbn [session_state]. apply lookup_insert_eq. }
    rendered.
  - rendered.
Qed.

(** C1, amended.  For an Upload whose extraction yields the empty string,
    the controller surfaces the warning (after the extractor's own error
    banner, if the extraction failed), and the prior state is not kept:
    the stored ExtractedText is overwritten with the empty string and the
    stored filename with the name of the uploaded file.  Every other
    entry of the session, the Summary among them, is left as it was. *)
Theorem upload_empty_extraction_overwrites
    (doc_type : DocType) (f : UploadedFile) (w : World) :
  extraction_yields doc_type (read f) "" ->
  exists es,
    (es = [] \/ exists e, es = [extraction_error doc_type e]) /\
    process_uploaded_file doc_type (Some f) w =
      (Returns tt,
       {| session_state :=
            <["uploaded_file_name" := name f]>
              (<["full_notes_text" := ""]> (session_state w));
          page :=
            page w ++ es ++
            [Warning "Could not extract text from the document. Please try another file."];
          requests := requests w;
          widget_keys := widget_keys w |}).
Proof.
  intros Hyields.
  destruct (extraction_yields_run _ _ _ w Hyields) as (es & Hrun & Hes).
  exists es. split; [tauto|].
  now rewrite (process_uploaded_file_run _ _ _ _ _ Hrun).
Qed.

End UploadProperties.

(** ** [os.path.splitext] *)

Section Splitext.
Import genericpath.

Lemma len_append (s t : string) : len (s +:+ t) = len s + len t.
Proof.
  unfold len. induction s as [|a s IH]; [reflexivity|].
  rewrite append_cons. cbn [String.length]. lia.
Qed.

Lemma len_nonneg (s : string) : 0 <= len s.
Proof. unfold len. lia. Qed.

Lemma rfind_bounds (p : string) (c : ascii) : -1 <= rfind p c < len p.
Proof.
  unfold len. induction p as [|a p IH]; cbn [rfind String.length]; [lia|].
  destruct (0 <=? rfind p c) eqn:Hr; [lia|].
  destruct (Ascii.eqb a c); lia.
Qed.

Lemma rfind_absent (p : string) (c : ascii) :
  ~ In c (list_ascii_of_string p) -> rfind p c = -1.
Proof.
  induction p as [|a p IH]; cbn [rfind list_ascii_of_string In]; [reflexivity|].
  intros Hnotin. rewrite IH by tauto. cbn.
  destruct (Ascii.eqb_spec a c); [tauto | reflexivity].
Qed.

Lemma rfind_cons_absent (a : ascii) (p : string) (c : ascii) :
  ~ In c (list_ascii_of_string p) ->
  rfind (String a p) c = if Ascii.eqb a c then 0 else -1.
Proof. intros Hnotin. cbn [rfind]. now rewrite (rfind_absent p c Hnotin). Qed.

Lemma rfind_append (s t : string) (c : ascii) :
  rfind (s +:+ t) c =
    if 0 <=? rfind t c then len s + rfind t c else rfind s c.
Proof.
  induction s as [|a s IH].
  - rewrite append_nil_l. pose proof (rfind_bounds t c).
    destruct (0 <=? rfind t c) eqn:Hr; cbn [rfind]; unfold len; cbn; lia.
  - rewrite append_cons. cbn [rfind]. rewrite IH.
    pose proof (len_nonneg s).
    destruct (0 <=? rfind t c) eqn:Hr; [|reflexivity].
    assert ((0 <=? len s + rfind t c) = true) as -> by lia.
    unfold len. cbn [String.length]. lia.
Qed.

Lemma substring_prefix (s t : string) :
  substring 0 (String.length s) (s +:+ t) = s.
Proof.
  induction s as [|a s IH]; cbn [String.length].
  - rewrite append_nil_l. now destruct t.
  - rewrite append_cons. cbn [substring]. now rewrite IH.
Qed.

Lemma substring_skip (s t : string) (m : nat) :
  substring (String.length s) m (s +:+ t) = substring 0 m t.
Proof.
  induction s as [|a s IH]; [reflexivity|].
  rewrite append_cons. cbn [String.length substring]. apply IH.
Qed.

Lemma slice_prefix (s t : string) :
  slice (s +:+ t) None (Some (len s)) = s.
Proof.
  unfold slice, clip. rewrite len_append.
  pose proof (len_nonneg s). pose proof (len_nonneg t).
  assert ((len s <? 0) = false) as -> by lia.
  replace (Z.to_nat (Z.min (len s) (len s + len t) - 0)) with (String.length s)
    by (unfold len in *; lia).
  apply substring_prefix.
Qed.

Lemma slice_char (s t : string) (c : ascii) :
  slice (s +:+ String c t) (Some (len s)) (Some (len s + 1)) = String c "".
Proof.
  unfold slice, clip. rewrite len_append.
  pose proof (len_nonneg s). pose proof (len_nonneg t).
  assert (len (String c t) = 1 + len t) as -> by (unfold len; cbn [String.length]; lia).
  assert ((len s <? 0) = false) as -> by lia.
  assert ((len s + 1 <? 0) = false) as -> by lia.
  replace (Z.to_nat (Z.min (len s) (len s + (1 + len t)))) with (String.length s)
    by (unfold len in *; lia).
  replace (Z.to_nat (Z.min (len s + 1) (len s + (1 + len t)) -
                     Z.min (len s) (len s + (1 + len t)))) with 1%nat
    by (unfold len in *; lia).
  rewrite substring_skip. cbn [substring]. now destruct t.
Qed.

(** One turn of the loop. *)
Lemma skip_leading_dots_step (p : string) (extsep : ascii) (dotIndex i : Z) :
  skip_leading_dots p extsep dotIndex i =
    if i <? dotIndex then
      if negb (String.eqb (slice p (Some i) (Some (i + 1))) (String extsep ""))
      then Some (slice p None (Some dotIndex), slice p (Some dotIndex) None)
      else skip_leading_dots p extsep dotIndex (i + 1)
    else None.
Proof.
  rewrite skip_leading_dots_unfold_eq. unfold skip_leading_dots_unfold.
  destruct (Z_lt_dec i dotIndex) as [Hlt|Hge]; cbn.
  - assert ((i <? dotIndex) = true) as -> by lia. reflexivity.
  - assert ((i <? dotIndex) = false) as -> by lia. reflexivity.
Qed.

(** The loop returns as soon as the component holds a character that is
    not a dot. *)
Lemma skip_leading_dots_returns (p : string) (extsep : ascii) (dotIndex i j : Z) :
  i <= j < dotIndex ->
  slice p (Some j) (Some (j + 1)) <> String extsep "" ->
  skip_leading_dots p extsep dotIndex i =
    Some (slice p None (Some dotIndex), slice p (Some dotIndex) None).
Proof.
  intros Hrange Hchar.
  remember (Z.to_nat (j - i)) as n eqn:Hn. revert i Hrange Hn.
  induction n as [|n IH]; intros i Hrange Hn;
    rewrite skip_leading_dots_step;
    (assert ((i <? dotIndex) = true) as -> by lia).
  - assert (i = j) as -> by lia.
    apply String.eqb_neq in Hchar. now rewrite Hchar.
  - destruct (negb _); [reflexivity|]. apply IH; lia.
Qed.

Lemma string_split_at (c : ascii) (s : string) :
  In c (list_ascii_of_string s) -> exists s1 s2, s = s1 +:+ String c s2.
Proof.
  induction s as [|a s IH]; cbn [list_ascii_of_string In]; [tauto|].
  intros [-> | Hin].
  - now exists "", s.
  - destruct (IH Hin) as (s1 & s2 & ->). now exists (String a s1), s2.
Qed.

Lemma not_separator (os : os_name) (c : ascii) :
  is_separator os c = false ->
  c <> os_path.sep os /\ os_path.altsep os <> Some c.
Proof.
  unfold is_separator. intros Hsep. apply orb_false_elim in Hsep as [Hs Ha].
  apply Ascii.eqb_neq in Hs. split; [assumption|].
  destruct (os_path.altsep os) as [a|]; [|discriminate].
  apply Ascii.eqb_neq in Ha. congruence.
Qed.

(** A character that occurs neither in [base] nor in [ext] and is not
    the dot is last found, in [dir + base + "." + ext], inside [dir]. *)
Lemma rfind_in_dir (dir base ext : string) (c : ascii) :
  ~ In c (list_ascii_of_string base) ->
  ~ In c (list_ascii_of_string ext) ->
  c <> os_path.extsep ->
  rfind (dir +:+ base +:+ String os_path.extsep ext) c = rfind dir c.
Proof.
  intros Hbase Hext Hdot.
  assert (rfind (base +:+ String os_path.extsep ext) c = -1) as Hrest.
  { rewrite rfind_append, (rfind_cons_absent _ _ _ Hext).
    assert (Ascii.eqb os_path.extsep c = false) as ->
      by (apply Ascii.eqb_neq; congruence).
    apply rfind_absent, Hbase. }
  rewrite rfind_append, Hrest. reflexivity.
Qed.

(** [splitext] on a file name with an extension: the root is the name up
    to the last dot. *)
Lemma splitext_root (os : os_name) (dir base ext : string) :
  is_base_name os base = true ->
  is_extension os ext = true ->
  fst (os_path.splitext os (dir +:+ base +:+ "." +:+ ext)) = dir +:+ base.
Proof.
  intros Hbase Hext.
  apply andb_prop in Hbase as [Hbase_sep Hbase_char].
  rewrite forallb_forall in Hbase_sep.
  apply existsb_exists in Hbase_char as (c & Hc_in & Hc_dot).
  apply negb_true_iff, Ascii.eqb_neq in Hc_dot.
  unfold is_extension in Hext. rewrite forallb_forall in Hext.
  assert (Hext_dot : ~ In os_path.extsep (list_ascii_of_string ext)).
  { intros Hin. specialize (Hext _ Hin). apply andb_prop in Hext as [_ Hne].
    now rewrite Ascii.eqb_refl in Hne. }
  assert (Hseps : forall s, is_separator os s = true ->
            rfind (dir +:+ base +:+ String os_path.extsep ext) s = rfind dir s).
  { intros s Hs. apply rfind_in_dir.
    - intros Hin. specialize (Hbase_sep _ Hin). now rewrite Hs in Hbase_sep.
    - intros Hin. specialize (Hext _ Hin). now rewrite Hs in Hext.
    - intros ->. now destruct os. }
  set (p := dir +:+ base +:+ "." +:+ ext).
  assert (Hdot : rfind p os_path.extsep = len (dir +:+ base)).
  { unfold p. rewrite <- append_assoc, rfind_append.
    change ("." +:+ ext) with (String os_path.extsep ext).
    rewrite (rfind_cons_absent _ _ _ Hext_dot), Ascii.eqb_refl.
    change (0 <=? 0) with true. cbv iota. lia. }
  assert (Hsep : Z.max (rfind p (os_path.sep os))
                   (match os_path.altsep os with
                    | Some altsep => rfind p altsep
                    | None => rfind p (os_path.sep os)
                    end) < len dir).
  { unfold p. change ("." +:+ ext) with (String os_path.extsep ext).
    destruct os; cbn [os_path.sep os_path.altsep];
      rewrite ?Hseps by reflexivity.
    - pose proof (rfind_bounds dir "/"). lia.
    - pose proof (rfind_bounds dir "\"). pose proof (rfind_bounds dir "/"). lia. }
  destruct (string_split_at c base Hc_in) as (b1 & b2 & Hsplit).
  assert (Hchar : slice p (Some (len (dir +:+ b1))) (Some (len (dir +:+ b1) + 1))
                  <> String os_path.extsep "").
  { unfold p. rewrite Hsplit.
    replace (dir +:+ (b1 +:+ String c b2) +:+ "." +:+ ext)
      with ((dir +:+ b1) +:+ String c (b2 +:+ "." +:+ ext))
      by (now rewrite !append_assoc).
    rewrite slice_char. congruence. }
  assert (Hlen : len base = len b1 + 1 + len b2).
  { rewrite Hsplit, !len_append. unfold len. cbn [String.length]. lia. }
  pose proof (len_nonneg b1). pose proof (len_nonneg b2).
  unfold os_path.splitext, _splitext. fold p.
  assert (Hsep_index :
    match os_path.altsep os with
    | Some altsep => Z.max (rfind p (os_path.sep os)) (rfind p altsep)
    | None => rfind p (os_path.sep os)
    end < len dir).
  { destruct (os_path.altsep os); lia. }
  set (sepIndex :=
         match os_path.altsep os with
         | Some altsep => Z.max (rfind p (os_path.sep os)) (rfind p altsep)
         | None => rfind p (os_path.sep os)
         end) in *.
  rewrite Hdot.
  assert ((len (dir +:+ base) >? sepIndex) = true) as ->
    by (rewrite len_append; lia).
  rewrite (skip_leading_dots_returns p _ _ _ (len (dir +:+ b1)))
    by first [assumption | rewrite !len_append; lia].
  cbn [fst]. unfold p. rewrite <- append_assoc. apply slice_prefix.
Qed.

(** [splitext] on a name that is only an extension: the leading dot does
    not start an extension, and the name is kept whole. *)
Lemma splitext_dotfile (os : os_name) (t : string) :
  is_extension os t = true ->
  os_path.splitext os ("." +:+ t) = ("." +:+ t, "").
Proof.
  intros Ht. unfold is_extension in Ht. rewrite forallb_forall in Ht.
  assert (Hdot : ~ In os_path.extsep (list_ascii_of_string t)).
  { intros Hin. specialize (Ht _ Hin). apply andb_prop in Ht as [_ Hne].
    now rewrite Ascii.eqb_refl in Hne. }
  assert (Hseps : forall c, is_separator os c = true ->
                            rfind ("." +:+ t) c = -1).
  { intros c Hc. apply rfind_absent.
    change ("." +:+ t) with (String os_path.extsep t).
    cbn [list_ascii_of_string In]. intros [<- | Hin].
    - now destruct os.
    - specialize (Ht _ Hin). now rewrite Hc in Ht. }
  unfold os_path.splitext, _splitext.
  change ("." +:+ t) with (String os_path.extsep t) in *.
  rewrite (rfind_cons_absent _ _ _ Hdot), Ascii.eqb_refl.
  assert (match os_path.altsep os with
          | Some altsep =>
              Z.max (rfind (String os_path.extsep t) (os_path.sep os))
                (rfind (String os_path.extsep t) altsep)
          | None => rfind (String os_path.extsep t) (os_path.sep os)
          end = -1) as ->.
  { destruct os; cbn [os_path.sep os_path.altsep];
      rewrite ?Hseps by reflexivity; reflexivity. }
  change (0 >? -1) with true. cbv iota.
  rewrite skip_leading_dots_step.
  change (-1 + 1 <? 0) with false. cbv iota.
  unfold slice, clip. change (0 <? 0) with false. cbv iota.
  replace (Z.to_nat (Z.min 0 (len (String os_path.extsep t)) - 0)) with 0%nat
    by (pose proof (len_nonneg (String os_path.extsep t)); lia).
  reflexivity.
Qed.

End Splitext.

(** ** The summary display *)

Section DisplayProperties.
Variable os : os_name.

Lemma display_summary_run (S fn : string) (w : World) :
  session_state w !! "summarized_text" = Some S ->
  bool_of S = true ->
  session_state w !! "uploaded_file_name" = Some fn ->
  display_summary os w =
    (Returns tt,
     {| session_state := session_state w;
        page :=
          page w ++
          [Markdown "---"; Subheader "Summarized Notes ✨"; Write S;
           download_offer S
             ("summarized_notes_" +:+ fst (os_path.splitext os fn) +:+ ".txt")];
        requests := requests w;
        widget_keys := {["download_summarized_notes"]} ∪ widget_keys w |}).
Proof.
  intros HS Hnonempty Hfn. unfold display_summary.
  rewrite (bind_returns _ _ _ _ _ (getattr_present _ _ _ HS)), Hnonempty.
  unfold bind at 1, st.markdown at 1, st.emit at 1.
  unfold bind at 1, st.subheader at 1, st.emit at 1.
  erewrite bind_returns by (apply getattr_present; exact HS).
  unfold bind at 1, st.write at 1, st.emit at 1.
  erewrite bind_returns by (apply getattr_present; exact HS).
  erewrite bind_returns by (apply getattr_present; exact Hfn).
  rendered.
Qed.

(** With no Summary stored, nothing is displayed and nothing is offered. *)
Lemma display_summary_empty (w : World) :
  session_state w !! "summarized_text" = Some "" ->
  display_summary os w = (Returns tt, w).
Proof.
  intros HS. unfold display_summary.
  now rewrite (bind_returns _ _ _ _ _ (getattr_present _ _ _ HS)).
Qed.

(** In an initialised session the display block only renders, and
    registers the key of the button it renders. *)
Lemma display_summary_renders (w : World) :
  is_Some (session_state w !! "summarized_text") ->
  is_Some (session_state w !! "uploaded_file_name") ->
  exists es ks,
    display_summary os w = (Returns tt, registering (rendering w es) ks).
Proof.
  intros [S HS] [fn Hfn]. destruct (bool_of S) eqn:Hnonempty.
  - eexists _, _. apply (display_summary_run S fn w HS Hnonempty Hfn).
  - destruct S; [|discriminate]. exists [], ∅.
    rewrite rendering_nil, registering_empty. now apply display_summary_empty.
Qed.

(** C9, amended.  Whenever the session holds a non-empty Summary [S],
    the page offers one download, under the button's key: its content is
    [S] verbatim and its name is ["summarized_notes_"], then the stored
    filename with its last extension stripped as [os.path.splitext]
    strips it, then [".txt"].  A stored filename [base + "." + ext]
    (after an optional directory prefix) whose [base] holds a character
    other than a dot loses [".ext"], and for ["biology101.pdf"] the
    download is named ["summarized_notes_biology101.txt"]; a stored
    filename that is only an extension, such as [".pdf"], is kept whole. *)
Theorem download_offers_summary_under_derived_name (S fn : string) (w : World) :
  session_state w !! "summarized_text" = Some S ->
  bool_of S = true ->
  session_state w !! "uploaded_file_name" = Some fn ->
  exists file_name,
    display_summary os w =
      (Returns tt,
       {| session_state := session_state w;
          page :=
            page w ++
            [Markdown "---"; Subheader "Summarized Notes ✨"; Write S;
             download_offer S file_name];
          requests := requests w;
          widget_keys := {["download_summarized_notes"]} ∪ widget_keys w |}) /\
    file_name = "summarized_notes_" +:+ fst (os_path.splitext os fn) +:+ ".txt" /\
    (forall dir base ext,
       fn = dir +:+ base +:+ "." +:+ ext ->
       is_base_name os base = true ->
       is_extension os ext = true ->
       file_name = "summarized_notes_" +:+ (dir +:+ base) +:+ ".txt") /\
    (forall ext,
       fn = "." +:+ ext ->
       is_extension os ext = true ->
       file_name = "summarized_notes_" +:+ ("." +:+ ext) +:+ ".txt") /\
    (fn = "biology101.pdf" -> file_name = "summarized_notes_biology101.txt").
Proof.
  intros HS Hnonempty Hfn.
  exists ("summarized_notes_" +:+ fst (os_path.splitext os fn) +:+ ".txt").
  split; [now apply display_summary_run|].
  split; [reflexivity|]. split; [|split].
  - intros dir base ext -> Hbase Hext. now rewrite splitext_root.
  - intros ext -> Hext. now rewrite splitext_dotfile.
  - intros ->. now destruct os.
Qed.

End DisplayProperties.

(** ** A whole run *)

Lemma setdefault_present (k v j x : string) (d : gmap string string) :
  d !! j = Some x -> setdefault k v d !! j = Some x.
Proof.
  intros Hj. unfold setdefault. case_bool_decide as Hk; [assumption|].
  rewrite lookup_insert_ne; [assumption|].
  intros ->. apply Hk. now exists x.
Qed.

Lemma initialised_present (j x : string) (session : gmap string string) :
  session !! j = Some x -> initialised session !! j = Some x.
Proof. intros Hj. unfold initialised. now do 3 apply setdefault_present. Qed.

Lemma setdefault_fixed (k v : string) (d : gmap string string) :
  is_Some (d !! k) -> setdefault k v d = d.
Proof. intros Hk. unfold setdefault. now rewrite bool_decide_eq_true_2. Qed.

(** Lines 73-78 leave an initialised session as it is. *)
Lemma initialised_fixed (session : gmap string string) :
  is_Some (session !! "full_notes_text") ->
  is_Some (session !! "summarized_text") ->
  is_Some (session !! "uploaded_file_name") ->
  initialised session = session.
Proof.
  intros Htext Hsummary Hname. unfold initialised.
  rewrite (setdefault_fixed "full_notes_text") by assumption.
  rewrite (setdefault_fixed "summarized_text") by assumption.
  now apply setdefault_fixed.
Qed.

Lemma setdefault_run {B} (k v : string) (rest : M B) (w : World) :
  (present <- st.contains k ;;
   (if negb present then st.setattr k v else ret tt) ;;
   rest) w =
  rest {| session_state := setdefault k v (session_state w);
          page := page w;
          requests := requests w;
          widget_keys := widget_keys w |}.
Proof.
  unfold bind, st.contains, setdefault.
  case_bool_decide; cbn [negb]; [now destruct w | reflexivity].
Qed.

Lemma setdefault_run_last (k v : string) (w : World) :
  (present <- st.contains k ;;
   if negb present then st.setattr k v else ret tt) w =
  (Returns tt,
   {| session_state := setdefault k v (session_state w);
      page := page w;
      requests := requests w;
      widget_keys := widget_keys w |}).
Proof.
  unfold bind, st.contains, setdefault.
  case_bool_decide; cbn [negb]; [now destruct w | reflexivity].
Qed.

Lemma init_session_state_run (w : World) :
  init_session_state w =
    (Returns tt,
     {| session_state := initialised (session_state w);
        page := page w;
        requests := requests w;
        widget_keys := widget_keys w |}).
Proof.
  unfold init_session_state, initialised.
  rewrite !setdefault_run. now rewrite setdefault_run_last.
Qed.

Section RunProperties.
Context {fitz : PdfLibrary} {docx : DocxLibrary} {model : GenerativeModel}.
Variable GEMINI_API_KEY : option string.
Variable os : os_name.

Lemma configure_run (w : World) :
  exists es, configure GEMINI_API_KEY w = (Returns tt, rendering w es).
Proof.
  unfold configure. destruct (negb (bool_of GEMINI_API_KEY)).
  - eexists [_]. reflexivity.
  - exists []. now rewrite rendering_nil.
Qed.

Lemma header_run (w : World) :
  exists es, header w = (Returns tt, rendering w es).
Proof. eexists. unfold header. rendered. Qed.

Lemma upload_instructions_renders
    (uploaded_file : option UploadedFile) (w : World) :
  is_Some (session_state w !! "full_notes_text") ->
  exists es, upload_instructions uploaded_file w = (Returns tt, rendering w es).
Proof.
  intros [T HT]. unfold upload_instructions.
  destruct uploaded_file; [exists []; now rewrite rendering_nil|].
  rewrite (bind_returns _ _ _ _ _ (getattr_present _ _ _ HT)).
  destruct (negb (bool_of T)).
  - eexists [_]. reflexivity.
  - exists []. now rewrite rendering_nil.
Qed.

(** A whole run in which Summarize is clicked with a failed precondition
    and nothing is in the uploader leaves the entries of an initialised
    session exactly as it found them, and sends no request. *)
Lemma run_summarize_noop
    (declared : DocType) (T : string) (session : gmap string string) :
  session !! "full_notes_text" = Some T ->
  is_Some (session !! "summarized_text") ->
  is_Some (session !! "uploaded_file_name") ->
  T = "" \/ bool_of GEMINI_API_KEY = false ->
  exists es ks,
    run GEMINI_API_KEY os
      {| doc_type := declared; uploaded_file := None; button := true |}
      session =
    (Returns tt,
     {| session_state := session; page := es; requests := [];
        widget_keys := ks |}).
Proof.
  intros HT HS Hfn Hpre.
  unfold run, script. cbn [doc_type uploaded_file button].
  set (w0 := {| session_state := session; page := []; requests := [];
                widget_keys := ∅ |}).
  destruct (configure_run w0) as (es1 & Hconfigure).
  rewrite (bind_returns _ _ _ _ _ Hconfigure).
  destruct (header_run (rendering w0 es1)) as (es2 & Hheader).
  rewrite (bind_returns _ _ _ _ _ Hheader).
  rewrite (bind_returns _ _ _ _ _ (init_session_state_run _)).
  cbn [rendering session_state page requests w0 app].
  rewrite initialised_fixed by eauto.
  unfold bind at 1, process_uploaded_file at 1, ret at 1.
  match goal with |- context [bind _ _ ?w] => set (w1 := w) end.
  destruct (summarize_renders_when_precondition_fails GEMINI_API_KEY true T w1 HT Hpre)
    as (es3 & Hsummarize).
  rewrite (bind_returns _ _ _ _ _ Hsummarize).
  destruct (display_summary_renders os (rendering w1 es3) HS Hfn)
    as (es4 & ks & Hdisplay).
  rewrite (bind_returns _ _ _ _ _ Hdisplay).
  destruct (upload_instructions_renders None
              (registering (rendering (rendering w1 es3) es4) ks))
    as (es5 & Hinstructions); [cbn; eauto|].
  rewrite Hinstructions. now eexists _, _.
Qed.

(** C10.  In a session that holds a non-empty Summary [S] from an earlier
    document, a run in which a new file is uploaded, its extraction
    yields a non-empty text [T] and Summarize is not clicked ends
    normally with [S] still stored, although the stored ExtractedText is
    now [T] and the stored filename that of the new file; the page
    displays [S] and offers [S] for download under the name derived from
    the new file's name. *)
Theorem stale_summary_offered_under_new_name
    (S T : string) (declared : DocType) (f : UploadedFile)
    (session : gmap string string) :
  session !! "summarized_text" = Some S ->
  bool_of S = true ->
  extraction_yields declared (read f) T ->
  bool_of T = true ->
  exists w',
    run GEMINI_API_KEY os
      {| doc_type := declared; uploaded_file := Some f; button := false |}
      session = (Returns tt, w') /\
    session_state w' !! "summarized_text" = Some S /\
    session_state w' !! "full_notes_text" = Some T /\
    session_state w' !! "uploaded_file_name" = Some (name f) /\
    requests w' = [] /\
    In (Write S) (page w') /\
    In (download_offer S
          ("summarized_notes_" +:+ fst (os_path.splitext os (name f)) +:+ ".txt"))
       (page w').
Proof.
  intros HS Hnonempty Hyields HT.
  unfold run, script. cbn [doc_type uploaded_file button].
  set (w0 := {| session_state := session; page := []; requests := [];
                widget_keys := ∅ |}).
  destruct (configure_run w0) as (es1 & Hconfigure).
  rewrite (bind_returns _ _ _ _ _ Hconfigure).
  destruct (header_run (rendering w0 es1)) as (es2 & Hheader).
  rewrite (bind_returns _ _ _ _ _ Hheader).
  rewrite (bind_returns _ _ _ _ _ (init_session_state_run _)).
  match goal with |- context [bind _ _ ?w] => set (w1 := w) end.
  destruct (extraction_yields_run _ _ _ w1 Hyields) as (es & Hrun & Hes).
  assert (es = []) as ->.
  { destruct Hes as [Hes | [-> _]]; [assumption | discriminate HT]. }
  rewrite (bind_returns _ _ _ _ _ (process_uploaded_file_run _ _ _ _ _ Hrun)).
  rewrite HT. unfold bind at 1, summarize_button at 1, ret at 1.
  match goal with |- context [bind _ _ ?w] => set (w2 := w) end.
  assert (HS2 : session_state w2 !! "summarized_text" = Some S).
  { cbn [w2 w1 w0 session_state rendering].
    rewrite !lookup_insert_ne by discriminate. now apply initialised_present. }
  assert (Hfn2 : session_state w2 !! "uploaded_file_name" = Some (name f)).
  { cbn [w2 session_state]. apply lookup_insert_eq. }
  rewrite (bind_returns _ _ _ _ _ (display_summary_run os S _ w2 HS2 Hnonempty Hfn2)).
  cbn [upload_instructions]. eexists. split; [reflexivity|].
  cbn [rendering session_state requests page].
  repeat split; try assumption.
  - cbn [w2 session_state]. rewrite lookup_insert_ne by discriminate.
    apply lookup_insert_eq.
  - apply in_or_app. right. cbn. tauto.
  - apply in_or_app. right. cbn. tauto.
Qed.

End RunProperties.

(** ** The properties on the stub libraries *)

Section OnStubs.
Import Stub.

(** The claim that an Upload with an empty extraction leaves the stored
    ExtractedText and filename untouched fails: after work on [old.pdf],
    uploading a file the PDF library rejects yields the empty string,
    and both entries are overwritten. *)
Lemma upload_empty_extraction_counterexample :
  let w := world earlier_session in
  let w' := snd (process_uploaded_file PDF (Some garbage_pdf) w) in
  extraction_yields PDF (read garbage_pdf) "" /\
  session_state w !! "full_notes_text" = Some "old notes" /\
  session_state w' !! "full_notes_text" = Some "" /\
  session_state w !! "uploaded_file_name" = Some "old.pdf" /\
  session_state w' !! "uploaded_file_name" = Some "new.pdf" /\
  ~ (session_state w' !! "full_notes_text" = session_state w !! "full_notes_text" /\
     session_state w' !! "uploaded_file_name" =
       session_state w !! "uploaded_file_name").
Proof.
  cbv zeta. split; [intros w; reflexivity|].
  repeat split; try (vm_compute; reflexivity).
  intros [Htext _]. vm_compute in Htext. discriminate.
Qed.

Lemma upload_empty_extraction_witness :
  let w := world earlier_session in
  extraction_yields PDF (read garbage_pdf) "" /\
  exists es,
    (es = [] \/ exists e, es = [extraction_error PDF e]) /\
    process_uploaded_file PDF (Some garbage_pdf) w =
      (Returns tt,
       {| session_state :=
            <["uploaded_file_name" := "new.pdf"]>
              (<["full_notes_text" := ""]> (session_state w));
          page :=
            page w ++ es ++
            [Warning "Could not extract text from the document. Please try another file."];
          requests := requests w;
          widget_keys := widget_keys w |}).
Proof.
  cbv zeta. split; [intros w; reflexivity|].
  apply (upload_empty_extraction_overwrites PDF garbage_pdf (world earlier_session)).
  intros w. reflexivity.
Defined.

(** The claim that Summarize with an empty ExtractedText shows the
    EmptyInput warning fails when no credential is configured: the
    handler shows the MissingCredential error and no warning. *)
Lemma summarize_empty_input_counterexample :
  let w := world fresh_session in
  let w' := snd (summarize_button (model := answering "S") None true w) in
  session_state w !! "full_notes_text" = Some "" /\
  page w' =
    [Error "Cannot summarize without a Gemini API key. Please check your setup."] /\
  ~ In (Warning "Please upload a document first before attempting to summarize.")
      (page w').
Proof.
  cbv zeta. repeat split; try (vm_compute; reflexivity).
  intros Hin. vm_compute in Hin. destruct Hin as [Heq | []]. discriminate.
Qed.

Lemma summarize_empty_input_warning_witness :
  let w := world fresh_session in
  session_state w !! "full_notes_text" = Some "" /\
  bool_of (Some "key") = true /\
  summarize_button (model := answering "S") (Some "key") true w =
    (Returns tt,
     rendering w
       [Warning "Please upload a document first before attempting to summarize."]).
Proof.
  cbv zeta. split; [reflexivity|]. split; [reflexivity|].
  apply (summarize_empty_input_warning (model := answering "S") (Some "key")
           (world fresh_session)); reflexivity.
Defined.

Lemma summarize_noop_witness :
  let w := world earlier_session in
  (session_state w !! "full_notes_text" = Some "" \/
   bool_of (@None string) = false) /\
  session_state (snd (summarize_button (model := answering "S") None true w)) =
    session_state w /\
  requests (snd (summarize_button (model := answering "S") None true w)) = requests w.
Proof.
  cbv zeta. split; [right; reflexivity|].
  apply (summarize_noop_when_precondition_fails (model := answering "S") None true
           (world earlier_session)).
  right. reflexivity.
Defined.

Lemma summarize_failure_witness :
  let w := world earlier_session in
  session_state w !! "full_notes_text" = Some "old notes" /\
  bool_of "old notes" = true /\
  bool_of (Some "key") = true /\
  generate_content (GenerativeModel := failing "quota exceeded")
    (prompt_instructions +:+ "old notes") = Raises (Exception "quota exceeded") /\
  summarize_button (model := failing "quota exceeded") (Some "key") true w =
    (Returns tt,
     {| session_state := <["summarized_text" := ""]> (session_state w);
        page := page w ++
                [Error ("Error generating summary from Gemini: " +:+ "quota exceeded")];
        requests := requests w ++ [prompt_instructions +:+ "old notes"];
        widget_keys := widget_keys w |}).
Proof.
  cbv zeta. do 4 (split; [reflexivity|]).
  apply (summarize_failure_clears_summary (model := failing "quota exceeded")
           (Some "key") "old notes" (Exception "quota exceeded")
           (world earlier_session));
    [reflexivity | reflexivity | reflexivity | left; reflexivity].
Defined.

Lemma summarize_success_witness :
  let w := world earlier_session in
  session_state w !! "full_notes_text" = Some "old notes" /\
  bool_of "old notes" = true /\
  bool_of (Some "key") = true /\
  generate_content (GenerativeModel := answering "S")
    (prompt_instructions +:+ "old notes") = Returns "S" /\
  Response_text (GenerativeModel := answering "S") "S" = Returns "S" /\
  summarize_button (model := answering "S") (Some "key") true w =
    (Returns tt,
     {| session_state := <["summarized_text" := "S"]> (session_state w);
        page := page w;
        requests := requests w ++ [prompt_instructions +:+ "old notes"];
        widget_keys := widget_keys w |}).
Proof.
  cbv zeta. do 5 (split; [reflexivity|]).
  apply (summarize_stores_response_text (model := answering "S")
           (Some "key") "old notes" "S" "S" (world earlier_session));
    reflexivity.
Defined.

Lemma extract_text_docx_witness :
  let w := world fresh_session in
  let doc : DocxDocument :=
    [list_byte_of_string "Rome"; list_byte_of_string "Carthage"] in
  Document (read two_paragraph_docx) = Returns doc /\
  Forall2 (fun para P => Paragraph_text para = Returns P)
    (paragraphs doc) ["Rome"; "Carthage"] /\
  extract_text_docx (read two_paragraph_docx) w =
    (Returns ("Rome" +:+ LF +:+ "Carthage" +:+ LF), w).
Proof.
  cbv zeta. split; [reflexivity|]. split; [repeat constructor|].
  apply (extract_text_docx_joins_paragraphs (docx := docx)
           (read two_paragraph_docx)
           [list_byte_of_string "Rome"; list_byte_of_string "Carthage"]
           ["Rome"; "Carthage"] (world fresh_session));
    [reflexivity | repeat constructor].
Defined.

Lemma extract_text_pdf_witness :
  let w := world fresh_session in
  let doc : PdfDocument :=
    [list_byte_of_string "atoms "; list_byte_of_string "bonds"] in
  fitz_open (read two_page_pdf) = Returns doc /\
  Forall2 (fun page T => get_text page = Returns T)
    (pages doc) ["atoms "; "bonds"] /\
  extract_text_pdf (read two_page_pdf) w = (Returns "atoms bonds", w).
Proof.
  cbv zeta. split; [reflexivity|]. split; [repeat constructor|].
  apply (extract_text_pdf_concatenates_pages (fitz := pdf)
           (read two_page_pdf)
           [list_byte_of_string "atoms "; list_byte_of_string "bonds"]
           ["atoms "; "bonds"] (world fresh_session));
    [reflexivity | repeat constructor].
Defined.

Lemma extractor_catches_parse_failure_witness :
  let w := world fresh_session in
  parse_fails PDF (read garbage_pdf) (Exception "Failed to open stream") /\
  extractor PDF (read garbage_pdf) w =
    (Returns "",
     rendering w [Error "Error extracting text from PDF: Failed to open stream"]).
Proof.
  cbv zeta. split; [left; reflexivity|].
  apply (extractor_catches_parse_failure PDF (read garbage_pdf)
           (Exception "Failed to open stream") (world fresh_session)).
  left. reflexivity.
Defined.

Lemma download_offer_witness :
  let w := world [("summarized_text", "S");
                  ("uploaded_file_name", "biology101.pdf")] in
  session_state w !! "summarized_text" = Some "S" /\
  bool_of "S" = true /\
  session_state w !! "uploaded_file_name" = Some "biology101.pdf" /\
  exists file_name,
    display_summary posix w =
      (Returns tt,
       {| session_state := session_state w;
          page :=
            page w ++
            [Markdown "---"; Subheader "Summarized Notes ✨"; Write "S";
             download_offer "S" file_name];
          requests := requests w;
          widget_keys := {["download_summarized_notes"]} ∪ widget_keys w |}) /\
    file_name =
      "summarized_notes_" +:+ fst (os_path.splitext posix "biology101.pdf") +:+ ".txt" /\
    (forall dir base ext,
       "biology101.pdf" = dir +:+ base +:+ "." +:+ ext ->
       is_base_name posix base = true ->
       is_extension posix ext = true ->
       file_name = "summarized_notes_" +:+ (dir +:+ base) +:+ ".txt") /\
    (forall ext,
       "biology101.pdf" = "." +:+ ext ->
       is_extension posix ext = true ->
       file_name = "summarized_notes_" +:+ ("." +:+ ext) +:+ ".txt") /\
    ("biology101.pdf" = "biology101.pdf" ->
     file_name = "summarized_notes_biology101.txt").
Proof.
  cbv zeta. do 3 (split; [reflexivity|]).
  apply (download_offers_summary_under_derived_name posix "S" "biology101.pdf"
           (world [("summarized_text", "S");
                   ("uploaded_file_name", "biology101.pdf")]));
    reflexivity.
Defined.

(** The claim that the download is named after the stored filename with
    its extension stripped fails for a file named [".pdf"]: the
    extension is [".pdf"], stripping it leaves nothing, and yet the
    download is named ["summarized_notes_.pdf.txt"], not
    ["summarized_notes_.txt"]. *)
Lemma download_name_extension_counterexample :
  let w := world [("summarized_text", "S"); ("uploaded_file_name", ".pdf")] in
  session_state w !! "uploaded_file_name" = Some ("" +:+ "." +:+ "pdf") /\
  is_extension posix "pdf" = true /\
  page (snd (display_summary posix w)) =
    [Markdown "---"; Subheader "Summarized Notes ✨"; Write "S";
     download_offer "S" "summarized_notes_.pdf.txt"] /\
  "summarized_notes_.pdf.txt" <> "summarized_notes_" +:+ "" +:+ ".txt".
Proof.
  cbv zeta. split; [reflexivity|]. split; [reflexivity|].
  split; [reflexivity | discriminate].
Qed.

Lemma stale_summary_witness :
  session_state (world earlier_session) !! "summarized_text" = Some "old summary" /\
  bool_of "old summary" = true /\
  extraction_yields PDF (read two_page_pdf) "atoms bonds" /\
  bool_of "atoms bonds" = true /\
  exists w',
    run (model := answering "S") (Some "key") posix
      {| doc_type := PDF; uploaded_file := Some two_page_pdf; button := false |}
      (session_state (world earlier_session)) = (Returns tt, w') /\
    session_state w' !! "summarized_text" = Some "old summary" /\
    session_state w' !! "full_notes_text" = Some "atoms bonds" /\
    session_state w' !! "uploaded_file_name" = Some "chemistry.pdf" /\
    requests w' = [] /\
    In (Write "old summary") (page w') /\
    In (download_offer "old summary"
          ("summarized_notes_" +:+ fst (os_path.splitext posix "chemistry.pdf") +:+ ".txt"))
       (page w').
Proof.
  split; [reflexivity|]. split; [reflexivity|].
  split; [intros w; reflexivity|]. split; [reflexivity|].
  apply (stale_summary_offered_under_new_name (model := answering "S")
           (Some "key") posix "old summary" "atoms bonds" PDF two_page_pdf
           (session_state (world earlier_session)));
    [reflexivity | reflexivity | intros w; reflexivity | reflexivity].
Defined.

(** A PDF without text: the extraction succeeds with the empty string,
    no error banner is shown, and the warning is. *)
Example blank_upload_warns :
  page (snd (process_uploaded_file PDF (Some blank_pdf) (world earlier_session))) =
    [Warning "Could not extract text from the document. Please try another file."].
Proof. reflexivity. Qed.

(** A response without text: reading it raises inside the [try], and
    the stored summary is cleared. *)
Example blocked_response_clears_summary :
  session_state
    (snd (summarize_button (model := blocked "response was blocked")
            (Some "key") true (world earlier_session)))
    !! "summarized_text" = Some "".
Proof. vm_compute. reflexivity. Qed.

(** On the stubs the download of the stale summary is named after the
    new file. *)
Example stale_summary_download_name :
  "summarized_notes_" +:+ fst (os_path.splitext posix "chemistry.pdf") +:+ ".txt"
  = "summarized_notes_chemistry.txt".
Proof. reflexivity. Qed.

End OnStubs.

(** * Further properties of the script *)

(** ** Extraction, whatever the bytes *)

Section LoopResults.
Context {A : Type} (f : A -> Outcome string) (g : string -> string).

(** The outcome of a loop of library calls does not depend on the world. *)
Lemma for_each_independent (xs : list A) (acc : string) (w w' : World) :
  fst (for_each xs (fun text x => t <- call (f x) ;; ret (text +:+ g t)) acc w) =
  fst (for_each xs (fun text x => t <- call (f x) ;; ret (text +:+ g t)) acc w').
Proof.
  revert acc. induction xs as [|x xs IH]; intros acc; cbn; [reflexivity|].
  unfold bind at 1 3, call at 1 2, bind at 1 2, ret at 1 2.
  destruct (f x) as [t|e]; cbn; [apply IH | reflexivity].
Qed.

End LoopResults.

Section ExtractionTotal.
Context {fitz : PdfLibrary} {docx : DocxLibrary}.

Lemma bind_call {A B} (o : Outcome A) (k : A -> M B) (w : World) :
  bind (call o) k w =
    match o with
    | Returns a => k a w
    | Raises e => (Raises e, w)
    end.
Proof. unfold bind, call. now destruct o. Qed.

Lemma extractor_independent (doc_type : DocType) (file_bytes : bytes)
    (w w' : World) :
  fst (extractor doc_type file_bytes w) = fst (extractor doc_type file_bytes w').
Proof.
  destruct doc_type; cbn [extractor].
  - unfold extract_text_pdf, try_except. rewrite !bind_call.
    destruct (fitz_open file_bytes) as [doc|e]; [|reflexivity].
    pose proof (for_each_independent get_text (fun t => t) (pages doc) "" w w')
      as Hfst.
    cbn beta iota in *.
    destruct (for_each _ _ _ w) as [[t|e] w1];
      destruct (for_each _ _ _ w') as [[t'|e'] w1'];
      cbn in Hfst; try discriminate; first [exact Hfst | reflexivity].
  - unfold extract_text_docx, try_except. rewrite !bind_call.
    destruct (Document file_bytes) as [doc|e]; [|reflexivity].
    pose proof (for_each_independent Paragraph_text (fun t => t +:+ LF)
                  (paragraphs doc) "" w w') as Hfst.
    cbn beta iota in *.
    destruct (for_each _ _ _ w) as [[t|e] w1];
      destruct (for_each _ _ _ w') as [[t'|e'] w1'];
      cbn in Hfst; try discriminate; first [exact Hfst | reflexivity].
Qed.

(** Every byte string has an extraction result, the same in every world. *)
Lemma extraction_total (doc_type : DocType) (file_bytes : bytes) :
  exists text, extraction_yields doc_type file_bytes text.
Proof.
  set (w0 := {| session_state := ∅; page := []; requests := [];
                widget_keys := ∅ |}).
  destruct (extractor_returns doc_type file_bytes w0) as [[t Hrun] | [e Hrun]].
  - exists t. intros w. rewrite (extractor_independent _ _ w w0).
    now rewrite Hrun.
  - exists "". intros w. rewrite (extractor_independent _ _ w w0).
    now rewrite Hrun.
Qed.

(** X1.  Whatever bytes it is given, an extractor returns normally: no
    exception leaves it.  It never touches the session dictionary or the
    request log, and it renders either nothing or, returning the empty
    string, the one error banner of the failure it caught. *)
Theorem extractor_never_raises
    (doc_type : DocType) (file_bytes : bytes) (w : World) :
  exists text es,
    extractor doc_type file_bytes w =
      (Returns text,
       {| session_state := session_state w;
          page := page w ++ es;
          requests := requests w;
          widget_keys := widget_keys w |}) /\
    (es = [] \/ text = "" /\ exists e, es = [extraction_error doc_type e]).
Proof.
  destruct (extractor_returns doc_type file_bytes w) as [[t Hrun] | [e Hrun]].
  - exists t, []. rewrite Hrun, app_nil_r. destruct w. cbn. tauto.
  - exists "", [extraction_error doc_type e]. rewrite Hrun. eauto.
Qed.

End ExtractionTotal.

(** ** The upload block, whatever the file *)

Section UploadAlways.
Context {fitz : PdfLibrary} {docx : DocxLibrary}.

Lemma docx_extraction_yields (file_bytes : bytes) (doc : DocxDocument)
    (Ps : list string) :
  Document file_bytes = Returns doc ->
  Forall2 (fun para P => Paragraph_text para = Returns P) (paragraphs doc) Ps ->
  extraction_yields DOCX file_bytes (paragraphs_joined Ps).
Proof.
  intros Hopen Htexts w. cbn [extractor].
  pose proof (for_each_returns Paragraph_text (fun t => t +:+ LF) _ _ "" w Htexts)
    as Hloop.
  unfold extract_text_docx, try_except. rewrite bind_call, Hopen.
  cbn beta iota in *. rewrite Hloop.
  now rewrite append_nil_l, joined_paragraphs.
Qed.

Lemma pdf_extraction_yields (file_bytes : bytes) (doc : PdfDocument)
    (Ts : list string) :
  fitz_open file_bytes = Returns doc ->
  Forall2 (fun page T => get_text page = Returns T) (pages doc) Ts ->
  extraction_yields PDF file_bytes (pages_concatenated Ts).
Proof.
  intros Hopen Htexts w. cbn [extractor].
  pose proof (for_each_returns get_text (fun t => t) _ _ "" w Htexts) as Hloop.
  unfold extract_text_pdf, try_except. rewrite bind_call, Hopen.
  cbn beta iota in *. rewrite Hloop.
  now rewrite append_nil_l, joined_pages.
Qed.

(** X2.  Whatever file is in the uploader, the upload block returns
    normally, stores what the extractor returned under
    [full_notes_text] and the file's name under [uploaded_file_name],
    and changes nothing else: every other entry of the session (the
    summary among them) and the request log are as before. *)
Theorem upload_stores_text_and_name
    (doc_type : DocType) (f : UploadedFile) (w : World) :
  exists text es,
    extraction_yields doc_type (read f) text /\
    process_uploaded_file doc_type (Some f) w =
      (Returns tt,
       {| session_state :=
            <["uploaded_file_name" := name f]>
              (<["full_notes_text" := text]> (session_state w));
          page := page w ++ es;
          requests := requests w;
          widget_keys := widget_keys w |}).
Proof.
  destruct (extraction_total doc_type (read f)) as (text & Hyields).
  destruct (extraction_yields_run _ _ _ w Hyields) as (es & Hrun & _).
  eexists text, _. split; [assumption|].
  now rewrite (process_uploaded_file_run _ _ _ _ _ Hrun).
Qed.

(** X3.  For an upload whose extraction yields a non-empty text [T], the
    block stores [T] and the file's name, and renders the success notice
    naming the file followed by the hint to click Summarize; no error or
    warning banner is rendered. *)
Theorem upload_success_notice
    (doc_type : DocType) (f : UploadedFile) (T : string) (w : World) :
  extraction_yields doc_type (read f) T ->
  bool_of T = true ->
  process_uploaded_file doc_type (Some f) w =
    (Returns tt,
     {| session_state :=
          <["uploaded_file_name" := name f]>
            (<["full_notes_text" := T]> (session_state w));
        page :=
          page w ++
          [Success (name f +:+ " uploaded and text extracted successfully!");
           Info "Now, click 'Summarize Notes' to get your summary!"];
        requests := requests w;
        widget_keys := widget_keys w |}).
Proof.
  intros Hyields HT.
  destruct (extraction_yields_run _ _ _ w Hyields) as (es & Hrun & Hes).
  assert (es = []) as ->.
  { destruct Hes as [Hes | [-> _]]; [assumption | discriminate HT]. }
  rewrite (process_uploaded_file_run _ _ _ _ _ Hrun), HT. reflexivity.
Qed.

Lemma paragraphs_joined_nonempty (Ps : list string) :
  Ps <> [] -> bool_of (paragraphs_joined Ps) = true.
Proof.
  destruct Ps as [|P Ps]; [congruence|]. intros _. cbn [paragraphs_joined].
  destruct P as [|a P]; reflexivity.
Qed.

Lemma pages_concatenated_empty (Ts : list string) :
  Forall (fun T => T = "") Ts -> pages_concatenated Ts = "".
Proof.
  induction 1 as [|T Ts -> _ IH]; cbn [pages_concatenated]; [reflexivity|].
  now rewrite append_nil_l.
Qed.

(** X4.  A well-formed DOCX with at least one paragraph is always
    reported as a successful upload, even when every paragraph is empty:
    the newline appended after each paragraph makes the extracted text
    non-empty. *)
Theorem docx_with_a_paragraph_is_a_success
    (f : UploadedFile) (doc : DocxDocument) (Ps : list string) (w : World) :
  Document (read f) = Returns doc ->
  Forall2 (fun para P => Paragraph_text para = Returns P) (paragraphs doc) Ps ->
  Ps <> [] ->
  paragraphs_joined Ps <> "" /\
  process_uploaded_file DOCX (Some f) w =
    (Returns tt,
     {| session_state :=
          <["uploaded_file_name" := name f]>
            (<["full_notes_text" := paragraphs_joined Ps]> (session_state w));
        page :=
          page w ++
          [Success (name f +:+ " uploaded and text extracted successfully!");
           Info "Now, click 'Summarize Notes' to get your summary!"];
        requests := requests w;
        widget_keys := widget_keys w |}).
Proof.
  intros Hopen Htexts Hsome.
  pose proof (paragraphs_joined_nonempty Ps Hsome) as Hnonempty.
  split; [intros Hempty; now rewrite Hempty in Hnonempty|].
  pose proof (docx_extraction_yields _ _ _ Hopen Htexts) as Hyields.
  destruct (extraction_yields_run _ _ _ w Hyields) as (es & Hrun & Hes).
  assert (es = []) as ->.
  { destruct Hes as [Hes | [Hempty _]]; [assumption|].
    rewrite Hempty in Hnonempty. discriminate. }
  rewrite (process_uploaded_file_run _ _ _ _ _ Hrun), Hnonempty. reflexivity.
Qed.

(** X5.  A well-formed PDF none of whose pages has text (no pages at
    all, or scanned pages) is treated like a failed extraction: the
    stored text becomes empty and the warning is shown, with no error
    banner before it. *)
Theorem pdf_without_text_warns
    (f : UploadedFile) (doc : PdfDocument) (w : World) :
  fitz_open (read f) = Returns doc ->
  Forall (fun page => get_text page = Returns "") (pages doc) ->
  process_uploaded_file PDF (Some f) w =
    (Returns tt,
     {| session_state :=
          <["uploaded_file_name" := name f]>
            (<["full_notes_text" := ""]> (session_state w));
        page :=
          page w ++
          [Warning "Could not extract text from the document. Please try another file."];
        requests := requests w;
        widget_keys := widget_keys w |}).
Proof.
  intros Hopen Hblank.
  assert (Htexts : Forall2 (fun page T => get_text page = Returns T)
                     (pages doc) (map (fun _ => "") (pages doc))).
  { induction Hblank; cbn; constructor; assumption. }
  assert (Hrun : extractor PDF (read f) w = (Returns "", rendering w [])).
  { cbn [extractor].
    pose proof (for_each_returns get_text (fun t => t) _ _ "" w Htexts) as Hloop.
    unfold extract_text_pdf, try_except. rewrite bind_call, Hopen.
    cbn beta iota in *. rewrite Hloop, append_nil_l, joined_pages.
    rewrite pages_concatenated_empty, rendering_nil; [reflexivity|].
    clear. induction (pages doc); cbn; constructor; auto. }
  rewrite (process_uploaded_file_run _ _ _ _ _ Hrun). reflexivity.
Qed.

End UploadAlways.

(** ** The Summarize button, in every case *)

Section SummarizeAlways.
Context {model : GenerativeModel}.
Variable GEMINI_API_KEY : option string.

(** An attempt: both preconditions hold and the request is sent. *)
Lemma summarize_attempt_run (T : string) (w : World) :
  session_state w !! "full_notes_text" = Some T ->
  bool_of T = true ->
  bool_of GEMINI_API_KEY = true ->
  summarize_button GEMINI_API_KEY true w =
    (Returns tt,
     {| session_state :=
          <["summarized_text" := attempted_summary T]> (session_state w);
        page := page w ++ attempt_banner T;
        requests := requests w ++ [prompt_instructions +:+ T];
        widget_keys := widget_keys w |}).
Proof.
  intros HT Hnonempty Hkey. unfold summarize_button.
  rewrite (bind_returns _ _ _ _ _ (getattr_present _ _ _ HT)).
  rewrite Hnonempty, Hkey. cbn [andb].
  unfold try_except.
  rewrite (bind_returns _ _ _ _ _ (getattr_present _ _ _ HT)).
  unfold attempted_summary, attempt_banner, backend.
  unfold bind at 1, model_generate_content.
  destruct (generate_content (prompt_instructions +:+ T)) as [response|e].
  - rewrite bind_call.
    destruct (Response_text response) as [summary|e]; [|reflexivity].
    unfold st.setattr. cbn [session_state page requests].
    now rewrite app_nil_r.
  - reflexivity.
Qed.

(** The handler in an initialised session, case by case. *)
Lemma summarize_button_run (clicked : bool) (T : string) (w : World) :
  session_state w !! "full_notes_text" = Some T ->
  summarize_button GEMINI_API_KEY clicked w =
    if clicked && bool_of T && bool_of GEMINI_API_KEY then
      (Returns tt,
       {| session_state :=
            <["summarized_text" := attempted_summary T]> (session_state w);
          page := page w ++ attempt_banner T;
          requests := requests w ++ [prompt_instructions +:+ T];
          widget_keys := widget_keys w |})
    else
      (Returns tt,
       rendering w
         (if clicked then
            if bool_of GEMINI_API_KEY then
              [Warning "Please upload a document first before attempting to summarize."]
            else
              [Error "Cannot summarize without a Gemini API key. Please check your setup."]
          else [])).
Proof.
  intros HT. destruct clicked; cbn [andb].
  - destruct (bool_of T) eqn:Hnonempty, (bool_of GEMINI_API_KEY) eqn:Hkey;
      cbn [andb].
    + now apply summarize_attempt_run.
    + unfold summarize_button.
      rewrite (bind_returns _ _ _ _ _ (getattr_present _ _ _ HT)).
      now rewrite Hnonempty, Hkey.
    + unfold summarize_button.
      rewrite (bind_returns _ _ _ _ _ (getattr_present _ _ _ HT)).
      now rewrite Hnonempty, Hkey.
    + unfold summarize_button.
      rewrite (bind_returns _ _ _ _ _ (getattr_present _ _ _ HT)).
      now rewrite Hnonempty, Hkey.
  - now rewrite rendering_nil.
Qed.

(** X6.  In a session that holds an ExtractedText, the Summarize handler
    returns normally whatever the backend does, and the only entry of
    the session it can change is [summarized_text]: the extracted text,
    the stored filename and every other entry are as before. *)
Theorem summarize_changes_only_the_summary
    (clicked : bool) (T : string) (w : World) :
  session_state w !! "full_notes_text" = Some T ->
  exists w',
    summarize_button GEMINI_API_KEY clicked w = (Returns tt, w') /\
    forall k, k <> "summarized_text" ->
              session_state w' !! k = session_state w !! k.
Proof.
  intros HT. rewrite (summarize_button_run clicked T w HT).
  destruct (clicked && bool_of T && bool_of GEMINI_API_KEY).
  - eexists. split; [reflexivity|]. intros k Hk. cbn [session_state].
    now rewrite lookup_insert_ne.
  - eexists. split; [reflexivity|]. intros k Hk. reflexivity.
Qed.

(** X7.  One click sends at most one request.  A request is sent exactly
    when the button was clicked, the ExtractedText [T] is not empty and
    a credential is configured, and it is the fixed instructions followed
    by [T] verbatim; there is no second request after a failure. *)
Theorem summarize_sends_at_most_one_request
    (clicked : bool) (T : string) (w : World) :
  session_state w !! "full_notes_text" = Some T ->
  requests (snd (summarize_button GEMINI_API_KEY clicked w)) =
    requests w ++
    (if clicked && bool_of T && bool_of GEMINI_API_KEY
     then [prompt_instructions +:+ T] else []).
Proof.
  intros HT. rewrite (summarize_button_run clicked T w HT).
  destruct (clicked && bool_of T && bool_of GEMINI_API_KEY); cbn.
  - reflexivity.
  - now rewrite app_nil_r.
Qed.

End SummarizeAlways.

(** ** Whole runs, whatever the widgets and the session *)

Lemma setdefault_key (k v : string) (d : gmap string string) :
  is_Some (setdefault k v d !! k).
Proof.
  unfold setdefault. case_bool_decide as Hk; [assumption|].
  rewrite lookup_insert_eq. now exists v.
Qed.

Lemma setdefault_keeps (k v j : string) (d : gmap string string) :
  is_Some (d !! j) -> is_Some (setdefault k v d !! j).
Proof. intros [x Hx]. exists x. now apply setdefault_present. Qed.

Lemma setdefault_other (k v j : string) (d : gmap string string) :
  j <> k -> setdefault k v d !! j = d !! j.
Proof.
  intros Hne. unfold setdefault. case_bool_decide; [reflexivity|].
  now rewrite lookup_insert_ne.
Qed.

Lemma initialised_keys (session : gmap string string) (k : string) :
  In k session_keys -> is_Some (initialised session !! k).
Proof.
  unfold initialised. cbn [session_keys In].
  intros [<- | [<- | [<- | []]]].
  - do 2 apply setdefault_keeps. apply setdefault_key.
  - apply setdefault_keeps. apply setdefault_key.
  - apply setdefault_key.
Qed.

Section DisplayAlways.
Variable os : os_name.

Lemma display_summary_displayed (w : World) :
  is_Some (session_state w !! "summarized_text") ->
  is_Some (session_state w !! "uploaded_file_name") ->
  display_summary os w =
    (Returns tt,
     registering (rendering w (displayed os (session_state w)))
       (displayed_keys (session_state w))).
Proof.
  intros [summary HS] [fn Hfn]. unfold displayed, displayed_keys.
  rewrite HS, Hfn. destruct (bool_of summary) eqn:Hnonempty.
  - apply (display_summary_run os summary fn w HS Hnonempty Hfn).
  - destruct summary; [|discriminate].
    rewrite rendering_nil, registering_empty. now apply display_summary_empty.
Qed.

End DisplayAlways.

Lemma upload_instructions_hint
    (uploaded_file : option UploadedFile) (w : World) :
  is_Some (session_state w !! "full_notes_text") ->
  upload_instructions uploaded_file w =
    (Returns tt, rendering w (upload_hint uploaded_file (session_state w))).
Proof.
  intros [T HT]. unfold upload_instructions, upload_hint.
  destruct uploaded_file; [now rewrite rendering_nil|].
  rewrite (bind_returns _ _ _ _ _ (getattr_present _ _ _ HT)), HT.
  destruct T; [reflexivity|]. now rewrite rendering_nil.
Qed.

Section RunAlways.
Context {fitz : PdfLibrary} {docx : DocxLibrary} {model : GenerativeModel}.
Variable GEMINI_API_KEY : option string.
Variable os : os_name.

Lemma configure_startup_banner (w : World) :
  configure GEMINI_API_KEY w =
    (Returns tt, rendering w (startup_banner GEMINI_API_KEY)).
Proof.
  unfold configure, startup_banner.
  destruct (bool_of GEMINI_API_KEY); cbn [negb]; [|reflexivity].
  now rewrite rendering_nil.
Qed.

(** What the upload block makes of the session of a run, and what it
    renders: for a file, the error banner of a failed extraction, if any,
    then the notice. *)
Lemma upload_block_run (widgets : Widgets) (w : World) :
  exists s2 es,
    process_uploaded_file (doc_type widgets) (uploaded_file widgets) w =
      (Returns tt,
       {| session_state := s2; page := page w ++ es; requests := requests w;
          widget_keys := widget_keys w |}) /\
    match uploaded_file widgets with
    | None => s2 = session_state w /\ es = []
    | Some f =>
        exists text,
          extraction_yields (doc_type widgets) (read f) text /\
          s2 = <["uploaded_file_name" := name f]>
                 (<["full_notes_text" := text]> (session_state w)) /\
          (es = upload_notice (name f) text \/
           text = "" /\
           exists e, es = extraction_error (doc_type widgets) e ::
                          upload_notice (name f) text)
    end.
Proof.
  destruct (uploaded_file widgets) as [f|].
  - destruct (extraction_total (doc_type widgets) (read f)) as (text & Hyields).
    destruct (extraction_yields_run _ _ _ w Hyields) as (es & Hrun & Hes).
    eexists _, _. rewrite (process_uploaded_file_run _ _ _ _ _ Hrun).
    split; [reflexivity|]. exists text. split; [assumption|].
    split; [reflexivity|]. unfold upload_notice.
    destruct Hes as [-> | (-> & e & ->)]; [left; reflexivity|].
    right. split; [reflexivity|]. now exists e.
  - exists (session_state w), []. split; [|split; reflexivity].
    cbn. rewrite app_nil_r. now destruct w.
Qed.

Lemma run_result_eq (s s' : gmap string string) (p p' : list Element)
    (r r' : list string) (ks ks' : gset string) :
  s = s' -> p = p' -> r = r' -> ks = ks' ->
  (Returns tt,
   {| session_state := s; page := p; requests := r; widget_keys := ks |}) =
  (Returns tt,
   {| session_state := s'; page := p'; requests := r'; widget_keys := ks' |}).
Proof. now intros -> -> -> ->. Qed.

(** One run, from any session and with any widgets: the session it
    leaves, the page it renders and the requests it sends. *)
Lemma run_spec (widgets : Widgets) (session : gmap string string) :
  exists s2 T es,
    match uploaded_file widgets with
    | None => s2 = initialised session /\ es = []
    | Some f =>
        exists text,
          extraction_yields (doc_type widgets) (read f) text /\
          s2 = <["uploaded_file_name" := name f]>
                 (<["full_notes_text" := text]> (initialised session)) /\
          (es = upload_notice (name f) text \/
           text = "" /\
           exists e, es = extraction_error (doc_type widgets) e ::
                          upload_notice (name f) text)
    end /\
    s2 !! "full_notes_text" = Some T /\
    let attempt := button widgets && bool_of T && bool_of GEMINI_API_KEY in
    let s3 :=
      if attempt then <["summarized_text" := attempted_summary T]> s2 else s2 in
    run GEMINI_API_KEY os widgets session =
      (Returns tt,
       {| session_state := s3;
          page :=
            startup_banner GEMINI_API_KEY ++
            [Title "📚 Student Notes Summarizer";
             Markdown "
    Upload your notes (PDF or Word) and I'll help you summarize them!
"] ++
            es ++
            summarize_banner GEMINI_API_KEY (button widgets) T ++
            displayed os s3 ++ upload_hint (uploaded_file widgets) s3;
          requests := if attempt then [prompt_instructions +:+ T] else [];
          widget_keys := displayed_keys s3 |}).
Proof.
  unfold run, script.
  set (w0 := {| session_state := session; page := []; requests := [];
                widget_keys := ∅ |}).
  rewrite (bind_returns _ _ _ _ _ (configure_startup_banner w0)).
  unfold bind at 1, header at 1, bind at 1, st.title at 1, st.emit at 1,
    st.markdown at 1, st.emit at 1.
  rewrite (bind_returns _ _ _ _ _ (init_session_state_run _)).
  cbn [rendering session_state page requests w0 app].
  match goal with |- context [bind _ _ ?w] => set (w1 := w) end.
  destruct (upload_block_run widgets w1) as (s2 & es1 & Hupload & Hs2).
  rewrite (bind_returns _ _ _ _ _ Hupload).
  cbn [w1 session_state page requests] in *.
  assert (Hkeys : forall k, In k session_keys -> is_Some (s2 !! k)).
  { intros k Hk. pose proof (initialised_keys session k Hk) as Hinit.
    destruct (uploaded_file widgets) as [f|]; [|now destruct Hs2 as [-> _]].
    destruct Hs2 as (text & _ & -> & _).
    destruct (decide (k = "uploaded_file_name")) as [->|Hname];
      [rewrite lookup_insert_eq; eauto|].
    rewrite lookup_insert_ne by congruence.
    destruct (decide (k = "full_notes_text")) as [->|Htext];
      [rewrite lookup_insert_eq; eauto|].
    now rewrite lookup_insert_ne by congruence. }
  destruct (Hkeys "full_notes_text") as [T HT]; [cbn; tauto|].
  exists s2, T, es1.
  split; [exact Hs2|]. split; [exact HT|].
  match goal with |- context [bind _ _ ?w] => set (w2 := w) end.
  pose proof (summarize_button_run GEMINI_API_KEY (button widgets) T w2 HT)
    as Hsummarize.
  cbv zeta. unfold summarize_banner.
  set (attempt := button widgets && bool_of T && bool_of GEMINI_API_KEY) in *.
  destruct attempt; rewrite (bind_returns _ _ _ _ _ Hsummarize).
  - match goal with |- context [bind _ _ ?w] => set (w3 := w) end.
    assert (HS3 : is_Some (session_state w3 !! "summarized_text")).
    { cbn [w3 session_state]. rewrite lookup_insert_eq. eauto. }
    assert (Hfn3 : is_Some (session_state w3 !! "uploaded_file_name")).
    { cbn [w3 w2 session_state]. rewrite lookup_insert_ne by discriminate.
      apply Hkeys. cbn. tauto. }
    assert (HT3 : is_Some (session_state w3 !! "full_notes_text")).
    { cbn [w3 w2 session_state]. rewrite lookup_insert_ne by discriminate.
      eauto. }
    rewrite (bind_returns _ _ _ _ _ (display_summary_displayed os w3 HS3 Hfn3)).
    rewrite upload_instructions_hint by exact HT3.
    subst w3 w2. unfold rendering, registering.
    cbn [session_state page requests widget_keys].
    apply run_result_eq;
      [reflexivity | | reflexivity | apply union_empty_r_L].
    rewrite <- !app_assoc. reflexivity.
  - match goal with |- context [bind _ _ ?w] => set (w3 := w) end.
    assert (HS3 : is_Some (session_state w3 !! "summarized_text")).
    { cbn [w3 w2 rendering session_state]. apply Hkeys. cbn. tauto. }
    assert (Hfn3 : is_Some (session_state w3 !! "uploaded_file_name")).
    { cbn [w3 w2 rendering session_state]. apply Hkeys. cbn. tauto. }
    assert (HT3 : is_Some (session_state w3 !! "full_notes_text")).
    { cbn [w3 w2 rendering session_state]. eauto. }
    rewrite (bind_returns _ _ _ _ _ (display_summary_displayed os w3 HS3 Hfn3)).
    rewrite upload_instructions_hint by exact HT3.
    subst w3 w2. unfold rendering, registering.
    cbn [session_state page requests widget_keys].
    apply run_result_eq;
      [reflexivity | | reflexivity | apply union_empty_r_L].
    rewrite <- !app_assoc. reflexivity.
Qed.

End RunAlways.

Lemma initialised_other (session : gmap string string) (k : string) :
  ~ In k session_keys -> initialised session !! k = session !! k.
Proof.
  cbn [session_keys In]. intros Hk. unfold initialised.
  rewrite !setdefault_other by (intros ->; tauto). reflexivity.
Qed.

Lemma download_buttons_app (es es' : list Element) :
  download_buttons (es ++ es') = download_buttons es ++ download_buttons es'.
Proof. apply List.filter_app. Qed.

Section RunExtras.
Context {fitz : PdfLibrary} {docx : DocxLibrary} {model : GenerativeModel}.
Variable GEMINI_API_KEY : option string.
Variable os : os_name.

(** Two extractions of the same bytes yield the same text. *)
Lemma extraction_yields_functional (doc_type : DocType) (file_bytes : bytes)
    (text text' : string) :
  extraction_yields doc_type file_bytes text ->
  extraction_yields doc_type file_bytes text' ->
  text = text'.
Proof.
  intros Hyields Hyields'.
  set (w0 := {| session_state := ∅; page := []; requests := [];
                widget_keys := ∅ |}).
  specialize (Hyields w0). specialize (Hyields' w0). congruence.
Qed.

(** After any run the three entries of the script are in the session. *)
Lemma run_session_keys
    (widgets : Widgets) (session : gmap string string) (k : string) :
  In k session_keys ->
  is_Some (session_state (snd (run GEMINI_API_KEY os widgets session)) !! k).
Proof.
  intros Hk.
  destruct (run_spec GEMINI_API_KEY os widgets session)
    as (s2 & T & es & Hs2 & HT & Hrun).
  cbv zeta in *. rewrite Hrun. cbn [snd session_state].
  pose proof (initialised_keys session k Hk) as Hinit.
  assert (Hs2k : is_Some (s2 !! k)).
  { destruct (uploaded_file widgets) as [f|]; [|now destruct Hs2 as [-> _]].
    destruct Hs2 as (text & _ & -> & _).
    destruct (decide (k = "uploaded_file_name")) as [->|Hname];
      [rewrite lookup_insert_eq; eauto|].
    rewrite lookup_insert_ne by congruence.
    destruct (decide (k = "full_notes_text")) as [->|Htext];
      [rewrite lookup_insert_eq; eauto|].
    now rewrite lookup_insert_ne by congruence. }
  destruct (button widgets && bool_of T && bool_of GEMINI_API_KEY);
    [|exact Hs2k].
  destruct (decide (k = "summarized_text")) as [->|Hne];
    [rewrite lookup_insert_eq; eauto|].
  now rewrite lookup_insert_ne by congruence.
Qed.

(** X9.  After any run [st.session_state] holds the three entries of
    the script; every other entry, the key of the download button apart,
    is as the run found it; and the one key the run registers for a
    widget is that of the download button, exactly when the summary
    stored at the end of the run is not empty. *)
Theorem run_keeps_session_shape
    (widgets : Widgets) (session : gmap string string) (k : string) :
  let w' := snd (run GEMINI_API_KEY os widgets session) in
  (In k session_keys -> is_Some (session_state w' !! k)) /\
  (~ In k session_keys -> k <> download_key ->
   session_state w' !! k = session !! k) /\
  exists summary,
    session_state w' !! "summarized_text" = Some summary /\
    widget_keys w' = if bool_of summary then {[download_key]} else ∅.
Proof.
  cbv zeta. split; [apply run_session_keys|].
  destruct (run_session_keys widgets session "summarized_text")
    as [summary HS]; [cbn; tauto|].
  destruct (run_session_keys widgets session "uploaded_file_name")
    as [fn Hfn]; [cbn; tauto|].
  destruct (run_spec GEMINI_API_KEY os widgets session)
    as (s2 & T & es & Hs2 & HT & Hrun).
  cbv zeta in *. rewrite Hrun in *.
  cbn [snd session_state widget_keys] in *. split.
  - intros Hk _.
    assert (Hs2k : s2 !! k = session !! k).
    { rewrite <- (initialised_other session k Hk).
      cbn [session_keys In] in Hk.
      destruct (uploaded_file widgets) as [f|]; [|now destruct Hs2 as [-> _]].
      destruct Hs2 as (text & _ & -> & _).
      now rewrite !lookup_insert_ne by (intros <-; tauto). }
    destruct (button widgets && bool_of T && bool_of GEMINI_API_KEY);
      [|exact Hs2k].
    cbn [session_keys In] in Hk.
    rewrite lookup_insert_ne by (intros <-; tauto). exact Hs2k.
  - exists summary. split; [exact HS|].
    unfold displayed_keys. now rewrite HS, Hfn.
Qed.

(** X10.  A run sends at most one request to the generation service, and
    only when Summarize was clicked and a credential is configured.  The
    request is the fixed instructions followed verbatim by the
    ExtractedText stored at the end of the run, which is not empty, and
    which is the text of the file in the uploader when there is one. *)
Theorem run_sends_at_most_one_request
    (widgets : Widgets) (session : gmap string string) :
  let w' := snd (run GEMINI_API_KEY os widgets session) in
  requests w' = [] \/
  button widgets = true /\
  bool_of GEMINI_API_KEY = true /\
  exists T,
    session_state w' !! "full_notes_text" = Some T /\
    bool_of T = true /\
    requests w' = [prompt_instructions +:+ T] /\
    forall f, uploaded_file widgets = Some f ->
              extraction_yields (doc_type widgets) (read f) T.
Proof.
  destruct (run_spec GEMINI_API_KEY os widgets session)
    as (s2 & T & es & Hs2 & HT & Hrun).
  cbv zeta in *. rewrite Hrun. cbn [snd session_state requests].
  destruct (button widgets) eqn:Hclick, (bool_of T) eqn:Hnonempty,
    (bool_of GEMINI_API_KEY) eqn:Hkey; cbn [andb]; try (left; reflexivity).
  right. do 2 (split; [reflexivity|]). exists T.
  rewrite lookup_insert_ne by discriminate.
  split; [exact HT|]. split; [exact Hnonempty|]. split; [reflexivity|].
  intros f Hf. rewrite Hf in Hs2. destruct Hs2 as (text & Hyields & -> & _).
  rewrite lookup_insert_ne in HT by discriminate.
  rewrite lookup_insert_eq in HT. now injection HT as <-.
Qed.

(** X11.  Without a credential, summarization is disabled and extraction
    is not: every run opens with the missing-key error, sends no request
    and leaves the stored summary as it was, while a file in the uploader
    is still extracted and its text stored. *)
Theorem run_without_credential
    (widgets : Widgets) (session : gmap string string) :
  bool_of GEMINI_API_KEY = false ->
  let w' := snd (run GEMINI_API_KEY os widgets session) in
  (exists es,
     page w' =
       Error "Gemini API key not found. Please set GEMINI_API_KEY in your .env file."
       :: es) /\
  requests w' = [] /\
  session_state w' !! "summarized_text" =
    initialised session !! "summarized_text" /\
  forall f, uploaded_file widgets = Some f ->
    exists text,
      extraction_yields (doc_type widgets) (read f) text /\
      session_state w' !! "full_notes_text" = Some text.
Proof.
  intros Hkey.
  destruct (run_spec GEMINI_API_KEY os widgets session)
    as (s2 & T & es & Hs2 & HT & Hrun).
  cbv zeta in *. rewrite Hrun. cbn [snd session_state requests page].
  rewrite Hkey, andb_false_r. unfold startup_banner. rewrite Hkey.
  split; [eexists; reflexivity|]. split; [reflexivity|]. split.
  - destruct (uploaded_file widgets) as [f|].
    + destruct Hs2 as (text & _ & -> & _).
      now rewrite !lookup_insert_ne by discriminate.
    + now destruct Hs2 as [-> _].
  - intros f Hf. rewrite Hf in Hs2. destruct Hs2 as (text & Hyields & -> & _).
    exists text. split; [assumption|].
    rewrite lookup_insert_ne by discriminate. apply lookup_insert_eq.
Qed.

End RunExtras.

Section RunDisplay.
Context {fitz : PdfLibrary} {docx : DocxLibrary} {model : GenerativeModel}.
Variable GEMINI_API_KEY : option string.
Variable os : os_name.

Lemma upload_notice_no_download (uploaded_file_name text : string) :
  download_buttons (upload_notice uploaded_file_name text) = [].
Proof. unfold upload_notice. now destruct (bool_of text). Qed.

Lemma summarize_banner_no_download (clicked : bool) (T : string) :
  download_buttons (summarize_banner GEMINI_API_KEY clicked T) = [].
Proof.
  unfold summarize_banner, attempt_banner.
  destruct (clicked && bool_of T && bool_of GEMINI_API_KEY).
  - now destruct (backend (prompt_instructions +:+ T)).
  - destruct clicked; [|reflexivity]. now destruct (bool_of GEMINI_API_KEY).
Qed.

Lemma upload_hint_no_download
    (uploaded_file : option UploadedFile) (session : gmap string string) :
  download_buttons (upload_hint uploaded_file session) = [].
Proof.
  unfold upload_hint. destruct uploaded_file; [reflexivity|].
  destruct (session !! "full_notes_text") as [[|a T]|]; reflexivity.
Qed.

(** X12.  The page of a run holds the download button at most once.  It
    is there exactly when the summary stored at the end of the run is not
    empty, and it then offers that summary, verbatim, under the name
    derived from the filename stored at the end of the run. *)
Theorem run_offers_one_download
    (widgets : Widgets) (session : gmap string string) :
  let w' := snd (run GEMINI_API_KEY os widgets session) in
  exists summary uploaded_file_name,
    session_state w' !! "summarized_text" = Some summary /\
    session_state w' !! "uploaded_file_name" = Some uploaded_file_name /\
    download_buttons (page w') =
      if bool_of summary
      then [download_offer summary (download_name os uploaded_file_name)]
      else [].
Proof.
  destruct (run_session_keys GEMINI_API_KEY os widgets session
              "summarized_text") as [summary HS]; [cbn; tauto|].
  destruct (run_session_keys GEMINI_API_KEY os widgets session
              "uploaded_file_name") as [fn Hfn]; [cbn; tauto|].
  cbv zeta. exists summary, fn. split; [exact HS|]. split; [exact Hfn|].
  destruct (run_spec GEMINI_API_KEY os widgets session)
    as (s2 & T & es & Hs2 & HT & Hrun).
  cbv zeta in Hrun. rewrite Hrun in *. cbn [snd session_state page] in *.
  rewrite !download_buttons_app.
  rewrite summarize_banner_no_download, upload_hint_no_download.
  assert (download_buttons (startup_banner GEMINI_API_KEY) = []) as ->.
  { unfold startup_banner. now destruct (bool_of GEMINI_API_KEY). }
  assert (download_buttons es = []) as ->.
  { destruct (uploaded_file widgets) as [f|]; [|now destruct Hs2 as [_ ->]].
    destruct Hs2 as (text & _ & _ & [-> | (_ & e & ->)]).
    - apply upload_notice_no_download.
    - change (download_buttons (extraction_error (doc_type widgets) e ::
                                upload_notice (name f) text))
        with (download_buttons ([extraction_error (doc_type widgets) e] ++
                                upload_notice (name f) text)).
      rewrite download_buttons_app, upload_notice_no_download.
      now destruct (doc_type widgets). }
  cbn [app download_buttons List.filter is_download_button].
  rewrite app_nil_r. unfold displayed. rewrite HS, Hfn.
  now destruct (bool_of summary).
Qed.

(** X13.  The happy path in one run.  With a credential configured, a
    file in the uploader whose extraction yields a non-empty text [T], a
    click on Summarize and a backend that answers the request for [T]
    with a non-empty text [S], the run leaves [st.session_state] holding
    [T], [S] and the file's name under the script's three names and the
    key of the download button it has rendered, has sent the one
    request, and renders the header, the success notice, the summary and
    its download named after the file, and nothing else. *)
Theorem run_upload_and_summarize
    (declared : DocType) (f : UploadedFile) (T S : string)
    (session : gmap string string) :
  bool_of GEMINI_API_KEY = true ->
  extraction_yields declared (read f) T ->
  bool_of T = true ->
  backend (prompt_instructions +:+ T) = Returns S ->
  bool_of S = true ->
  run GEMINI_API_KEY os
    {| doc_type := declared; uploaded_file := Some f; button := true |}
    session =
  (Returns tt,
   {| session_state :=
        <["summarized_text" := S]>
          (<["uploaded_file_name" := name f]>
             (<["full_notes_text" := T]> (initialised session)));
      page :=
        [Title "📚 Student Notes Summarizer";
         Markdown "
    Upload your notes (PDF or Word) and I'll help you summarize them!
";
         Success (name f +:+ " uploaded and text extracted successfully!");
         Info "Now, click 'Summarize Notes' to get your summary!";
         Markdown "---";
         Subheader "Summarized Notes ✨";
         Write S;
         download_offer S (download_name os (name f))];
      requests := [prompt_instructions +:+ T];
      widget_keys := {["download_summarized_notes"]} |}).
Proof.
  intros Hkey Hyields HT Hbackend HS.
  destruct (run_spec GEMINI_API_KEY os
              {| doc_type := declared; uploaded_file := Some f; button := true |}
              session) as (s2 & T' & es & Hs2 & HT' & Hrun).
  cbn [doc_type uploaded_file button] in *.
  destruct Hs2 as (text & Hyields' & -> & Hes).
  pose proof (extraction_yields_functional _ _ _ _ Hyields' Hyields) as ->.
  rewrite lookup_insert_ne in HT' by discriminate.
  rewrite lookup_insert_eq in HT'. injection HT' as <-.
  cbv zeta in Hrun. rewrite HT, Hkey in Hrun. cbn [andb] in Hrun.
  rewrite Hrun. clear Hrun.
  assert (es = upload_notice (name f) T) as ->.
  { destruct Hes as [-> | [-> _]]; [reflexivity | discriminate HT]. }
  unfold startup_banner, summarize_banner, attempt_banner, attempted_summary,
    upload_notice, upload_hint, displayed, displayed_keys.
  rewrite Hkey, HT, Hbackend. cbn [andb app].
  rewrite lookup_insert_eq.
  rewrite lookup_insert_ne by discriminate. rewrite lookup_insert_eq.
  rewrite HS. reflexivity.
Qed.

(** X14.  Re-running the script without a click changes nothing more:
    the session left by a run in which Summarize is not clicked is left
    unchanged by a second run with the same widgets, whatever is in the
    uploader, and neither run sends a request. *)
Theorem rerun_without_click_is_idempotent
    (widgets : Widgets) (session : gmap string string) :
  button widgets = false ->
  let w' := snd (run GEMINI_API_KEY os widgets session) in
  let w'' := snd (run GEMINI_API_KEY os widgets (session_state w')) in
  session_state w'' = session_state w' /\
  requests w' = [] /\ requests w'' = [].
Proof.
  intros Hclick.
  destruct (run_spec GEMINI_API_KEY os widgets session)
    as (s2 & T & es & Hs2 & HT & Hrun).
  cbv zeta in *. rewrite Hclick in Hrun. cbn [andb] in Hrun.
  rewrite Hrun. cbn [snd session_state requests].
  assert (Hkeys : forall k, In k session_keys -> is_Some (s2 !! k)).
  { intros k Hk.
    pose proof (run_session_keys GEMINI_API_KEY os widgets session k Hk)
      as Hin.
    now rewrite Hrun in Hin. }
  destruct (run_spec GEMINI_API_KEY os widgets s2)
    as (s2' & T' & es' & Hs2' & HT' & Hrun').
  cbv zeta in *. rewrite Hclick in Hrun'. cbn [andb] in Hrun'.
  rewrite Hrun'. cbn [snd session_state requests].
  split; [|split; reflexivity].
  rewrite initialised_fixed in Hs2' by (apply Hkeys; cbn; tauto).
  destruct (uploaded_file widgets) as [f|]; [|now destruct Hs2' as [-> _]].
  destruct Hs2 as (text & Hyields & Hs2 & _).
  destruct Hs2' as (text' & Hyields' & -> & _).
  pose proof (extraction_yields_functional _ _ _ _ Hyields' Hyields) as ->.
  rewrite (insert_id s2 "full_notes_text" text).
  - apply insert_id. rewrite Hs2. apply lookup_insert_eq.
  - rewrite Hs2. rewrite lookup_insert_ne by discriminate.
    apply lookup_insert_eq.
Qed.

(** X15.  With no text and no summary stored and nothing in the
    uploader, as at the start of a session, a run without a click shows
    the header and the prompt to upload, after the missing-key error if
    no credential is configured, and nothing else; it offers no download
    and leaves the three entries of the session empty or as they were. *)
Theorem run_landing_page (declared : DocType) (session : gmap string string) :
  session !! "full_notes_text" = None \/ session !! "full_notes_text" = Some "" ->
  session !! "summarized_text" = None \/ session !! "summarized_text" = Some "" ->
  run GEMINI_API_KEY os
    {| doc_type := declared; uploaded_file := None; button := false |}
    session =
  (Returns tt,
   {| session_state := initialised session;
      page :=
        startup_banner GEMINI_API_KEY ++
        [Title "📚 Student Notes Summarizer";
         Markdown "
    Upload your notes (PDF or Word) and I'll help you summarize them!
";
         Info "Please upload your notes (PDF or Word) to begin summarization. ☝️"];
      requests := [];
      widget_keys := ∅ |}).
Proof.
  intros Htext Hsummary.
  destruct (run_spec GEMINI_API_KEY os
              {| doc_type := declared; uploaded_file := None; button := false |}
              session) as (s2 & T & es & Hs2 & HT & Hrun).
  cbn [doc_type uploaded_file button andb] in *. cbv zeta in Hrun.
  destruct Hs2 as [-> ->]. rewrite Hrun. clear Hrun.
  assert (Htext' : initialised session !! "full_notes_text" = Some "").
  { unfold initialised. rewrite !setdefault_other by discriminate.
    unfold setdefault. destruct Htext as [Hnone | Hsome].
    - rewrite bool_decide_eq_false_2 by (rewrite Hnone; apply is_Some_None).
      apply lookup_insert_eq.
    - rewrite bool_decide_eq_true_2 by (rewrite Hsome; eauto). exact Hsome. }
  assert (Hsummary' : initialised session !! "summarized_text" = Some "").
  { unfold initialised. rewrite setdefault_other by discriminate.
    unfold setdefault at 1. destruct Hsummary as [Hnone | Hsome].
    - rewrite bool_decide_eq_false_2.
      + apply lookup_insert_eq.
      + rewrite setdefault_other by discriminate. rewrite Hnone.
        apply is_Some_None.
    - rewrite bool_decide_eq_true_2.
      + rewrite setdefault_other by discriminate. exact Hsome.
      + rewrite setdefault_other by discriminate. rewrite Hsome. eauto. }
  destruct (initialised_keys session "uploaded_file_name") as [fn Hfn];
    [cbn; tauto|].
  unfold summarize_banner, displayed, displayed_keys, upload_hint.
  rewrite Htext', Hsummary', Hfn. cbn [andb bool_of str_truthy app].
  reflexivity.
Qed.

End RunDisplay.

(** ** The session initialisation *)

(** X16.  Lines 73-78 give each of the three entries that is missing the
    empty string and overwrite nothing: every entry already in the
    session, under any key, keeps its value, and no other key appears. *)
Theorem init_session_state_fills_missing_entries (w : World) (k : string) :
  exists session',
    init_session_state w =
      (Returns tt,
       {| session_state := session'; page := page w; requests := requests w;
          widget_keys := widget_keys w |}) /\
    session' !! k =
      match session_state w !! k with
      | Some v => Some v
      | None => if bool_decide (In k session_keys) then Some "" else None
      end.
Proof.
  exists (initialised (session_state w)).
  split; [apply init_session_state_run|].
  destruct (session_state w !! k) as [v|] eqn:Hk.
  - now apply initialised_present.
  - case_bool_decide as Hin.
    + destruct (initialised_keys (session_state w) k Hin) as [v Hv].
      rewrite Hv. f_equal. revert Hv. unfold initialised.
      cbn [session_keys In] in Hin.
      destruct Hin as [<- | [<- | [<- | []]]].
      * rewrite !setdefault_other by discriminate.
        unfold setdefault. rewrite bool_decide_eq_false_2
          by (rewrite Hk; apply is_Some_None).
        rewrite lookup_insert_eq. congruence.
      * rewrite setdefault_other by discriminate.
        unfold setdefault at 1. rewrite bool_decide_eq_false_2
          by (rewrite setdefault_other by discriminate;
              rewrite Hk; apply is_Some_None).
        rewrite lookup_insert_eq. congruence.
      * unfold setdefault at 1. rewrite bool_decide_eq_false_2
          by (rewrite !setdefault_other by discriminate;
              rewrite Hk; apply is_Some_None).
        rewrite lookup_insert_eq. congruence.
    + rewrite initialised_other by exact Hin. exact Hk.
Qed.

(** ** The name of the download *)

Section SplitextCases.
Import genericpath.

Lemma rfind_present (p : string) (c : ascii) :
  In c (list_ascii_of_string p) -> 0 <= rfind p c.
Proof.
  induction p as [|a p IH]; cbn [list_ascii_of_string In rfind]; [tauto|].
  intros [-> | Hin].
  - destruct (0 <=? rfind p c) eqn:Hr; [lia|]. now rewrite Ascii.eqb_refl.
  - specialize (IH Hin). assert ((0 <=? rfind p c) = true) as -> by lia. lia.
Qed.

Lemma rfind_negative (p : string) (c : ascii) :
  rfind p c < 0 -> ~ In c (list_ascii_of_string p).
Proof. intros Hneg Hin. pose proof (rfind_present p c Hin). lia. Qed.

(** A character that is found is last found in front of a rest that
    does not hold it. *)
Lemma rfind_split (p : string) (c : ascii) :
  0 <= rfind p c ->
  exists s t, p = s +:+ String c t /\ len s = rfind p c /\
              ~ In c (list_ascii_of_string t).
Proof.
  induction p as [|a p IH]; cbn [rfind]; [lia|].
  destruct (0 <=? rfind p c) eqn:Hr.
  - intros _. destruct IH as (s & t & Hp & Hlen & Ht); [lia|].
    exists (String a s), t. rewrite append_cons, <- Hp.
    split; [reflexivity|]. split; [|assumption].
    unfold len in *. cbn [String.length]. lia.
  - destruct (Ascii.eqb_spec a c) as [->|Hne]; [|lia]. intros _.
    exists "", p. split; [reflexivity|]. split; [reflexivity|].
    apply rfind_negative. lia.
Qed.

Lemma rfind_after (s t : string) (c c' : ascii) :
  In c' (list_ascii_of_string t) -> len s < rfind (s +:+ String c t) c'.
Proof.
  intros Hin. pose proof (rfind_present t c' Hin) as Ht.
  rewrite rfind_append. cbn [rfind].
  assert ((0 <=? rfind t c') = true) as -> by lia.
  assert ((0 <=? rfind t c' + 1) = true) as -> by lia. lia.
Qed.

Lemma slice_to_zero (p : string) : slice p None (Some 0) = "".
Proof.
  unfold slice, clip. change (0 <? 0) with false. cbv iota.
  pose proof (len_nonneg p).
  replace (Z.to_nat (Z.min 0 (len p) - 0)) with 0%nat by lia.
  now destruct p.
Qed.

Lemma substring_all (t : string) : substring 0 (String.length t) t = t.
Proof.
  induction t as [|a t IH]; [reflexivity|].
  cbn [String.length substring]. now rewrite IH.
Qed.

Lemma slice_suffix (s t : string) :
  slice (s +:+ t) (Some (len s)) None = t.
Proof.
  unfold slice, clip. rewrite len_append.
  pose proof (len_nonneg s). pose proof (len_nonneg t).
  assert ((len s <? 0) = false) as -> by lia.
  replace (Z.to_nat (Z.min (len s) (len s + len t))) with (String.length s)
    by (unfold len in *; lia).
  replace (Z.to_nat (len s + len t - Z.min (len s) (len s + len t)))
    with (String.length t) by (unfold len in *; lia).
  rewrite substring_skip. apply substring_all.
Qed.

(** Where the loop returns, it returns the split at the dot. *)
Lemma skip_leading_dots_some (p : string) (extsep : ascii) (dotIndex i : Z)
    (r : string * string) :
  skip_leading_dots p extsep dotIndex i = Some r ->
  r = (slice p None (Some dotIndex), slice p (Some dotIndex) None).
Proof.
  remember (Z.to_nat (dotIndex - i)) as n eqn:Hn. revert i Hn.
  induction n as [|n IH]; intros i Hn; rewrite skip_leading_dots_step.
  - assert ((i <? dotIndex) = false) as -> by lia. discriminate.
  - assert ((i <? dotIndex) = true) as -> by lia.
    destruct (negb _); [congruence|]. apply IH. lia.
Qed.

(** [splitext] keeps the path whole or cuts it at its last dot, in front
    of an extension that holds no dot and no separator. *)
Lemma splitext_cases (os : os_name) (p : string) :
  os_path.splitext os p = (p, "") \/
  exists root t,
    p = root +:+ "." +:+ t /\
    os_path.splitext os p = (root, "." +:+ t) /\
    is_extension os t = true.
Proof.
  unfold os_path.splitext, _splitext.
  set (sepIndex :=
         match os_path.altsep os with
         | Some altsep => Z.max (rfind p (os_path.sep os)) (rfind p altsep)
         | None => rfind p (os_path.sep os)
         end).
  rewrite slice_to_zero.
  destruct (rfind p os_path.extsep >? sepIndex) eqn:Hdot; [|now left].
  destruct (skip_leading_dots p os_path.extsep (rfind p os_path.extsep)
              (sepIndex + 1)) as [r|] eqn:Hloop; [|now left].
  right. apply skip_leading_dots_some in Hloop. subst r.
  assert (Hsep_low : -1 <= sepIndex).
  { unfold sepIndex. pose proof (rfind_bounds p (os_path.sep os)).
    destruct (os_path.altsep os); lia. }
  destruct (rfind_split p os_path.extsep) as (root & t & Hp & Hlen & Ht); [lia|].
  exists root, t. split; [exact Hp|]. split.
  - rewrite <- Hlen. rewrite Hp at 1 2.
    now rewrite slice_prefix, slice_suffix.
  - unfold is_extension. apply forallb_forall. intros c Hc.
    apply andb_true_intro. split.
    + apply negb_true_iff. destruct (is_separator os c) eqn:Hsep; [|reflexivity].
      exfalso. pose proof (rfind_after root t os_path.extsep c Hc) as Hafter.
      rewrite <- Hp in Hafter.
      assert (rfind p c <= sepIndex); [|lia].
      unfold is_separator in Hsep. apply orb_prop in Hsep as [Hsep | Hsep].
      * apply Ascii.eqb_eq in Hsep as ->. unfold sepIndex.
        destruct (os_path.altsep os); lia.
      * unfold sepIndex. destruct (os_path.altsep os) as [altsep|];
          [|discriminate].
        apply Ascii.eqb_eq in Hsep as ->. lia.
    + apply negb_true_iff, Ascii.eqb_neq. intros ->. contradiction.
Qed.

End SplitextCases.

Section DownloadName.
Variable os : os_name.

(** X17.  The download is always named ["summarized_notes_"], then a
    prefix of the stored filename, then [".txt"].  What is cut off the
    filename is nothing, or its last extension: a dot followed by
    characters that are neither dots nor path separators, so at most one
    extension is removed and never a directory part. *)
Theorem download_name_cuts_last_extension (uploaded_file_name : string) :
  exists root ext,
    uploaded_file_name = root +:+ ext /\
    download_name os uploaded_file_name = "summarized_notes_" +:+ root +:+ ".txt" /\
    (ext = "" \/ exists t, ext = "." +:+ t /\ is_extension os t = true).
Proof.
  unfold download_name.
  destruct (splitext_cases os uploaded_file_name)
    as [Hwhole | (root & t & Hp & Hsplit & Ht)].
  - exists uploaded_file_name, "". rewrite Hwhole, append_nil_r.
    split; [reflexivity|]. split; [reflexivity|]. now left.
  - exists root, ("." +:+ t). rewrite Hsplit.
    split; [exact Hp|]. split; [reflexivity|]. right. now exists t.
Qed.

(** X18.  A stored filename that is only an extension, such as [".pdf"],
    is not stripped: its leading dot does not start an extension, and the
    download is named after the whole filename. *)
Theorem download_name_keeps_dotfile (t : string) :
  is_extension os t = true ->
  download_name os ("." +:+ t) = "summarized_notes_" +:+ ("." +:+ t) +:+ ".txt".
Proof.
  intros Ht. unfold download_name.
  now rewrite (splitext_dotfile os t Ht).
Qed.

End DownloadName.

(** ** Failures seen on a whole run *)

Section RunFailures.
Context {fitz : PdfLibrary} {docx : DocxLibrary} {model : GenerativeModel}.
Variable GEMINI_API_KEY : option string.
Variable os : os_name.

(** X19.  A failed Summarize attempt withdraws the summary from the
    page.  In an initialised session with a non-empty ExtractedText [T],
    nothing in the uploader and a credential configured, a click whose
    backend call raises [e] ends with the stored summary empty, and the
    page shows the header and the error naming [e] and nothing else: no
    summary and no download, whatever summary was stored before. *)
Theorem run_failed_attempt_shows_no_summary
    (declared : DocType) (T : string) (e : exn) (session : gmap string string) :
  session !! "full_notes_text" = Some T ->
  is_Some (session !! "summarized_text") ->
  is_Some (session !! "uploaded_file_name") ->
  bool_of T = true ->
  bool_of GEMINI_API_KEY = true ->
  backend (prompt_instructions +:+ T) = Raises e ->
  run GEMINI_API_KEY os
    {| doc_type := declared; uploaded_file := None; button := true |}
    session =
  (Returns tt,
   {| session_state := <["summarized_text" := ""]> session;
      page :=
        [Title "📚 Student Notes Summarizer";
         Markdown "
    Upload your notes (PDF or Word) and I'll help you summarize them!
";
         Error ("Error generating summary from Gemini: " +:+ str e)];
      requests := [prompt_instructions +:+ T];
      widget_keys := ∅ |}).
Proof.
  intros HT HS Hfn Hnonempty Hkey Hbackend.
  destruct (run_spec GEMINI_API_KEY os
              {| doc_type := declared; uploaded_file := None; button := true |}
              session) as (s2 & T' & es & Hs2 & HT' & Hrun).
  cbn [doc_type uploaded_file button] in *. cbv zeta in Hrun.
  destruct Hs2 as [-> ->].
  rewrite initialised_fixed in * by eauto.
  rewrite HT in HT'. injection HT' as <-.
  rewrite Hnonempty, Hkey in Hrun. cbn [andb] in Hrun.
  rewrite Hrun. clear Hrun.
  destruct Hfn as [fn Hfn].
  unfold startup_banner, summarize_banner, attempt_banner, attempted_summary,
    upload_hint, displayed, displayed_keys.
  rewrite Hkey, Hnonempty, Hbackend. cbn [andb app].
  rewrite lookup_insert_eq.
  rewrite (lookup_insert_ne session "summarized_text" "uploaded_file_name")
    by discriminate.
  rewrite (lookup_insert_ne session "summarized_text" "full_notes_text")
    by discriminate.
  rewrite Hfn, HT.
  cbn [bool_of str_truthy]. destruct T; [discriminate|]. reflexivity.
Qed.

(** X20.  A failed upload still renames the download of an old summary.
    In a session holding a non-empty summary [S], a run in which the
    file in the uploader yields no text ends with [S] still stored, no
    request sent even if Summarize was clicked, and [S] offered for
    download under the name derived from the file that failed. *)
Theorem run_failed_upload_keeps_stale_summary
    (declared : DocType) (f : UploadedFile) (clicked : bool) (S : string)
    (session : gmap string string) :
  session !! "summarized_text" = Some S ->
  bool_of S = true ->
  extraction_yields declared (read f) "" ->
  let w' := snd (run GEMINI_API_KEY os
                   {| doc_type := declared; uploaded_file := Some f;
                      button := clicked |} session) in
  session_state w' !! "summarized_text" = Some S /\
  session_state w' !! "full_notes_text" = Some "" /\
  session_state w' !! "uploaded_file_name" = Some (name f) /\
  requests w' = [] /\
  In (Warning "Could not extract text from the document. Please try another file.")
     (page w') /\
  download_buttons (page w') = [download_offer S (download_name os (name f))].
Proof.
  intros HS Hnonempty Hyields.
  destruct (run_spec GEMINI_API_KEY os
              {| doc_type := declared; uploaded_file := Some f;
                 button := clicked |} session)
    as (s2 & T & es & Hs2 & HT & Hrun).
  cbn [doc_type uploaded_file button] in *. cbv zeta in *.
  destruct Hs2 as (text & Hyields' & -> & Hes).
  pose proof (extraction_yields_functional _ _ _ _ Hyields' Hyields) as ->.
  rewrite lookup_insert_ne in HT by discriminate.
  rewrite lookup_insert_eq in HT. injection HT as <-.
  cbn [bool_of str_truthy andb] in Hrun. rewrite andb_false_r in Hrun.
  cbn [andb] in Hrun. rewrite Hrun. clear Hrun. cbn [snd session_state page requests].
  split.
  { rewrite !lookup_insert_ne by discriminate.
    now apply initialised_present. }
  split.
  { rewrite lookup_insert_ne by discriminate. apply lookup_insert_eq. }
  split; [apply lookup_insert_eq|]. split; [reflexivity|]. split.
  - apply in_or_app. right. apply in_or_app. right. apply in_or_app. left.
    unfold upload_notice in Hes. cbn [bool_of str_truthy] in Hes.
    destruct Hes as [-> | (_ & e & ->)]; cbn; tauto.
  - rewrite !download_buttons_app.
    rewrite (summarize_banner_no_download GEMINI_API_KEY),
      upload_hint_no_download.
    assert (download_buttons (startup_banner GEMINI_API_KEY) = []) as ->.
    { unfold startup_banner. now destruct (bool_of GEMINI_API_KEY). }
    assert (download_buttons es = []) as ->.
    { destruct Hes as [-> | (_ & e & ->)]; [reflexivity|].
      now destruct declared. }
    unfold displayed. rewrite !lookup_insert_ne by discriminate.
    rewrite (initialised_present _ _ _ HS), lookup_insert_eq, Hnonempty.
    reflexivity.
Qed.

End RunFailures.

(** ** The further properties on the stub libraries *)

Section FurtherOnStubs.
Import Stub.

Lemma upload_success_notice_witness :
  let w := world earlier_session in
  extraction_yields PDF (read two_page_pdf) "atoms bonds" /\
  bool_of "atoms bonds" = true /\
  process_uploaded_file PDF (Some two_page_pdf) w =
    (Returns tt,
     {| session_state :=
          <["uploaded_file_name" := "chemistry.pdf"]>
            (<["full_notes_text" := "atoms bonds"]> (session_state w));
        page :=
          page w ++
          [Success ("chemistry.pdf" +:+ " uploaded and text extracted successfully!");
           Info "Now, click 'Summarize Notes' to get your summary!"];
        requests := requests w;
        widget_keys := widget_keys w |}).
Proof.
  cbv zeta. split; [intros w; reflexivity|]. split; [reflexivity|].
  apply (upload_success_notice PDF two_page_pdf "atoms bonds"
           (world earlier_session));
    [intros w; reflexivity | reflexivity].
Defined.

Lemma docx_with_a_paragraph_witness :
  let w := world earlier_session in
  let doc : DocxDocument := [[]] in
  Document (read empty_paragraph_docx) = Returns doc /\
  Forall2 (fun para P => Paragraph_text para = Returns P) (paragraphs doc) [""] /\
  [""] <> [] /\
  paragraphs_joined [""] <> "" /\
  process_uploaded_file DOCX (Some empty_paragraph_docx) w =
    (Returns tt,
     {| session_state :=
          <["uploaded_file_name" := "empty.docx"]>
            (<["full_notes_text" := paragraphs_joined [""]]> (session_state w));
        page :=
          page w ++
          [Success ("empty.docx" +:+ " uploaded and text extracted successfully!");
           Info "Now, click 'Summarize Notes' to get your summary!"];
        requests := requests w;
        widget_keys := widget_keys w |}).
Proof.
  cbv zeta. split; [reflexivity|]. split; [repeat constructor|].
  split; [discriminate|].
  apply (docx_with_a_paragraph_is_a_success (docx := docx) empty_paragraph_docx
           [[]] [""] (world earlier_session));
    [reflexivity | repeat constructor | discriminate].
Defined.

Lemma pdf_without_text_witness :
  let w := world earlier_session in
  let doc : PdfDocument := [[]] in
  fitz_open (read blank_pdf) = Returns doc /\
  Forall (fun page => get_text page = Returns "") (pages doc) /\
  process_uploaded_file PDF (Some blank_pdf) w =
    (Returns tt,
     {| session_state :=
          <["uploaded_file_name" := "blank.pdf"]>
            (<["full_notes_text" := ""]> (session_state w));
        page :=
          page w ++
          [Warning "Could not extract text from the document. Please try another file."];
        requests := requests w;
        widget_keys := widget_keys w |}).
Proof.
  cbv zeta. split; [reflexivity|]. split; [repeat constructor|].
  apply (pdf_without_text_warns (fitz := pdf) blank_pdf [[]]
           (world earlier_session));
    [reflexivity | repeat constructor].
Defined.

Lemma summarize_changes_only_the_summary_witness :
  let w := world earlier_session in
  session_state w !! "full_notes_text" = Some "old notes" /\
  exists w',
    summarize_button (model := failing "quota exceeded") (Some "key") true w =
      (Returns tt, w') /\
    forall k, k <> "summarized_text" ->
              session_state w' !! k = session_state w !! k.
Proof.
  cbv zeta. split; [reflexivity|].
  apply (summarize_changes_only_the_summary (model := failing "quota exceeded")
           (Some "key") true "old notes" (world earlier_session)).
  reflexivity.
Defined.

Lemma summarize_sends_at_most_one_request_witness :
  let w := world earlier_session in
  session_state w !! "full_notes_text" = Some "old notes" /\
  requests (snd (summarize_button (model := failing "quota exceeded")
                   (Some "key") true w)) =
    requests w ++
    (if true && bool_of "old notes" && bool_of (Some "key")
     then [prompt_instructions +:+ "old notes"] else []).
Proof.
  cbv zeta. split; [reflexivity|].
  apply (summarize_sends_at_most_one_request (model := failing "quota exceeded")
           (Some "key") true "old notes" (world earlier_session)).
  reflexivity.
Defined.

Lemma run_without_credential_witness :
  let w' := snd (run (model := answering "S") None posix
                   (pdf_widgets (Some two_page_pdf) true)
                   (list_to_map earlier_session)) in
  bool_of (@None string) = false /\
  (exists es,
     page w' =
       Error "Gemini API key not found. Please set GEMINI_API_KEY in your .env file."
       :: es) /\
  requests w' = [] /\
  session_state w' !! "summarized_text" =
    initialised (list_to_map earlier_session) !! "summarized_text" /\
  forall f, uploaded_file (pdf_widgets (Some two_page_pdf) true) = Some f ->
    exists text,
      extraction_yields (doc_type (pdf_widgets (Some two_page_pdf) true))
        (read f) text /\
      session_state w' !! "full_notes_text" = Some text.
Proof.
  cbv zeta. split; [reflexivity|].
  apply (run_without_credential (model := answering "S") None posix
           (pdf_widgets (Some two_page_pdf) true) (list_to_map earlier_session)).
  reflexivity.
Defined.

Lemma run_upload_and_summarize_witness :
  bool_of (Some "key") = true /\
  extraction_yields PDF (read two_page_pdf) "atoms bonds" /\
  bool_of "atoms bonds" = true /\
  backend (model := answering "S") (prompt_instructions +:+ "atoms bonds") =
    Returns "S" /\
  bool_of "S" = true /\
  run (model := answering "S") (Some "key") posix
    {| doc_type := PDF; uploaded_file := Some two_page_pdf; button := true |}
    ∅ =
  (Returns tt,
   {| session_state :=
        <["summarized_text" := "S"]>
          (<["uploaded_file_name" := "chemistry.pdf"]>
             (<["full_notes_text" := "atoms bonds"]> (initialised ∅)));
      page :=
        [Title "📚 Student Notes Summarizer";
         Markdown "
    Upload your notes (PDF or Word) and I'll help you summarize them!
";
         Success ("chemistry.pdf" +:+ " uploaded and text extracted successfully!");
         Info "Now, click 'Summarize Notes' to get your summary!";
         Markdown "---";
         Subheader "Summarized Notes ✨";
         Write "S";
         download_offer "S" (download_name posix "chemistry.pdf")];
      requests := [prompt_instructions +:+ "atoms bonds"];
      widget_keys := {["download_summarized_notes"]} |}).
Proof.
  split; [reflexivity|]. split; [intros w; reflexivity|].
  do 3 (split; [reflexivity|]).
  apply (run_upload_and_summarize (model := answering "S") (Some "key") posix
           PDF two_page_pdf "atoms bonds" "S" ∅);
    [reflexivity | intros w; reflexivity | reflexivity | reflexivity
     | reflexivity].
Defined.

Lemma rerun_without_click_witness :
  let widgets := pdf_widgets (Some two_page_pdf) false in
  let w' := snd (run (model := answering "S") (Some "key") posix widgets
                   (list_to_map earlier_session)) in
  let w'' := snd (run (model := answering "S") (Some "key") posix widgets
                    (session_state w')) in
  button widgets = false /\
  session_state w'' = session_state w' /\
  requests w' = [] /\ requests w'' = [].
Proof.
  cbv zeta. split; [reflexivity|].
  apply (rerun_without_click_is_idempotent (model := answering "S")
           (Some "key") posix (pdf_widgets (Some two_page_pdf) false)
           (list_to_map earlier_session)).
  reflexivity.
Defined.

Lemma run_landing_page_witness :
  ((∅ : gmap string string) !! "full_notes_text" = None \/
   (∅ : gmap string string) !! "full_notes_text" = Some "") /\
  ((∅ : gmap string string) !! "summarized_text" = None \/
   (∅ : gmap string string) !! "summarized_text" = Some "") /\
  run (model := answering "S") None posix
    {| doc_type := PDF; uploaded_file := None; button := false |} ∅ =
  (Returns tt,
   {| session_state := initialised ∅;
      page :=
        startup_banner None ++
        [Title "📚 Student Notes Summarizer";
         Markdown "
    Upload your notes (PDF or Word) and I'll help you summarize them!
";
         Info "Please upload your notes (PDF or Word) to begin summarization. ☝️"];
      requests := [];
      widget_keys := ∅ |}).
Proof.
  split; [left; reflexivity|]. split; [left; reflexivity|].
  apply (run_landing_page (model := answering "S") None posix PDF ∅);
    left; reflexivity.
Defined.

Lemma run_failed_attempt_witness :
  let session : gmap string string := list_to_map earlier_session in
  session !! "full_notes_text" = Some "old notes" /\
  is_Some (session !! "summarized_text") /\
  is_Some (session !! "uploaded_file_name") /\
  bool_of "old notes" = true /\
  bool_of (Some "key") = true /\
  backend (model := failing "quota exceeded")
    (prompt_instructions +:+ "old notes") = Raises (Exception "quota exceeded") /\
  run (model := failing "quota exceeded") (Some "key") posix
    {| doc_type := PDF; uploaded_file := None; button := true |} session =
  (Returns tt,
   {| session_state := <["summarized_text" := ""]> session;
      page :=
        [Title "📚 Student Notes Summarizer";
         Markdown "
    Upload your notes (PDF or Word) and I'll help you summarize them!
";
         Error ("Error generating summary from Gemini: " +:+ "quota exceeded")];
      requests := [prompt_instructions +:+ "old notes"];
      widget_keys := ∅ |}).
Proof.
  cbv zeta. split; [reflexivity|].
  split; [exists "old summary"; reflexivity|].
  split; [exists "old.pdf"; reflexivity|].
  do 3 (split; [reflexivity|]).
  apply (run_failed_attempt_shows_no_summary (model := failing "quota exceeded")
           (Some "key") posix PDF "old notes" (Exception "quota exceeded")
           (list_to_map earlier_session));
    [reflexivity | exists "old summary"; reflexivity
     | exists "old.pdf"; reflexivity | reflexivity | reflexivity | reflexivity].
Defined.

Lemma run_failed_upload_witness :
  let session : gmap string string := list_to_map earlier_session in
  let w' := snd (run (model := answering "S") (Some "key") posix
                   {| doc_type := PDF; uploaded_file := Some garbage_pdf;
                      button := true |} session) in
  session !! "summarized_text" = Some "old summary" /\
  bool_of "old summary" = true /\
  extraction_yields PDF (read garbage_pdf) "" /\
  session_state w' !! "summarized_text" = Some "old summary" /\
  session_state w' !! "full_notes_text" = Some "" /\
  session_state w' !! "uploaded_file_name" = Some "new.pdf" /\
  requests w' = [] /\
  In (Warning "Could not extract text from the document. Please try another file.")
     (page w') /\
  download_buttons (page w') =
    [download_offer "old summary" (download_name posix "new.pdf")].
Proof.
  cbv zeta. split; [reflexivity|]. split; [reflexivity|].
  split; [intros w; reflexivity|].
  apply (run_failed_upload_keeps_stale_summary (model := answering "S")
           (Some "key") posix PDF garbage_pdf true "old summary"
           (list_to_map earlier_session));
    [reflexivity | reflexivity | intros w; reflexivity].
Defined.

Lemma download_name_keeps_dotfile_witness :
  is_extension posix "pdf" = true /\
  download_name posix ("." +:+ "pdf") =
    "summarized_notes_" +:+ ("." +:+ "pdf") +:+ ".txt".
Proof.
  split; [reflexivity|].
  apply (download_name_keeps_dotfile posix "pdf"). reflexivity.
Defined.

End FurtherOnStubs.
